(** * Logging decorators of chezmoi: DebugSystem, DebugPersistentState,
      the chezmoilog helpers and the script Interpreter.

    Shallow embedding of
    - [internal/chezmoi/debugpersistentstate.go] (DebugPersistentState),
    - package chezmoilog (FirstFewBytes, Output, InfoOrError,
      AppendExitErrorAttrs),
    - package chezmoi's DebugSystem and Interpreter.

    Go values are modelled as follows: [[]byte] is [list byte], [string] is
    [string] (a Go string is a byte sequence), [int] and [time.Duration] are
    [Z], a pointer that may be nil is an [option], the [error] interface is
    an [option] of an error value.  Calls that have effects run in the monad
    [M], a state monad over the program state (the world the wrapped
    implementation acts on, the wall clock, and the log records handed to
    loggers so far) in which a computation may also panic. *)

From Stdlib Require Import ZArith List String Ascii Bool Lia.
From Stdlib Require Import Strings.Byte.
Import ListNotations.
Open Scope string_scope.
Open Scope list_scope.
Open Scope Z_scope.

(** ** Types the code takes from its environment *)

(** The world the wrapped implementations act on, the logger handles, and
    the result types of the System interface this code never looks into. *)
Class Platform : Type := {
  World : Type;
  Logger : Type;          (* what a non-nil *slog.Logger points to *)
  fs_FileInfo : Type;     (* io/fs.FileInfo *)
  fs_DirEntry : Type;     (* io/fs.DirEntry *)
  vfs_FS : Type;          (* go-vfs FS *)
  PersistentState_ref : Type;  (* a PersistentState passed as an argument *)
  exec_LookPath : string -> string  (* the path os/exec resolves a name to *)
}.

Definition bytes := list byte.
Definition time_Time := Z.       (* an instant, in nanoseconds *)
Definition time_Duration := Z.   (* int64 nanoseconds *)

(** [string(b)] for [b []byte]. *)
Definition string_of_bytes (b : bytes) : string := string_of_list_byte b.

(** ** os and os/exec *)

(** How a process ended, as [os.ProcessState] reports it. *)
Inductive WaitStatus :=
| WExited (code : Z)
| WSignaled (signal : Z).

Module os.
Record ProcessState := {
  pid : Z;
  status : WaitStatus;
  utime : time_Duration;
  stime : time_Duration
}.

Definition Exited (p : ProcessState) : bool :=
  match status p with WExited _ => true | WSignaled _ => false end.

Definition ExitCode (p : ProcessState) : Z :=
  match status p with WExited c => c | WSignaled _ => -1 end.

Definition Pid (p : ProcessState) : Z := pid p.
Definition UserTime (p : ProcessState) : time_Duration := utime p.
Definition SystemTime (p : ProcessState) : time_Duration := stime p.
End os.

Module exec.
Record Cmd := {
  Path : string;
  Args : list string;
  Dir : string;
  Env : list string
}.

(** [exec.Command(name, arg...)]: only Path and Args are set, and Args is
    the command name followed by the arguments. *)
Definition Command `{Platform} (name : string) (arg : list string) : Cmd :=
  {| Path := exec_LookPath name; Args := name :: arg; Dir := ""; Env := [] |}.

(** [*exec.ExitError]: the embedded [*os.ProcessState] may be nil. *)
Record ExitError := {
  ProcessState : option os.ProcessState;
  Stderr : bytes
}.
End exec.

(** ** Errors *)

(** Non-nil values of the [error] interface: a process-exit error, an
    error that wraps another one, or any other error. *)
Inductive error_value :=
| ExecExitError (e : exec.ExitError)
| WrapError (msg : string) (inner : error_value)
| OtherError (msg : string).

Definition error := option error_value.

Module errors.
Fixpoint find_ExitError (v : error_value) : option exec.ExitError :=
  match v with
  | ExecExitError e => Some e
  | WrapError _ inner => find_ExitError inner
  | OtherError _ => None
  end.

(** [errors.As(err, &target)] for [target *exec.ExitError]: the first
    error of that type in err's chain; false on a nil error. *)
Definition As_ExitError (err : error) : option exec.ExitError :=
  match err with
  | None => None
  | Some v => find_ExitError v
  end.
End errors.

(** ** The script interpreter *)

Module Interpreter.
Record t := {
  Command : string;
  Args : list string
}.

(** [None] returns if i represents no interpreter. *)
Definition None (i : option t) : bool :=
  match i with
  | Datatypes.None => true
  | Some i => String.eqb (Command i) ""
  end.

(** [ExecCommand] returns the command to interpret name.  A nil receiver
    is never dereferenced: [None] holds of it and the first return is
    taken. *)
Definition ExecCommand `{Platform} (i : option t) (name : string) : exec.Cmd :=
  match i with
  | Datatypes.None => exec.Command name []
  | Some i' =>
      if None i then exec.Command name []
      else exec.Command (Command i') (Args i' ++ [name])
  end.
End Interpreter.

(** ** slog: values, attributes, records *)

Module slog.
Inductive Level := LevelInfo | LevelError.

(** [Value] is slog.Value, [Attr] is slog.Attr, and [any] collects the Go
    values this code passes where an [any] is expected. *)
Inductive Value :=
| StringValue (s : string)
| IntValue (n : Z)
| TimeValue (t : time_Time)
| DurationValue (d : time_Duration)
| AnyValue (a : any)
with any :=
| any_nil
| any_string (s : string)
| any_bytes (b : bytes)
| any_error (e : error_value)
| any_strings (l : list string)
| any_Attr (key : string) (v : Value)
| any_OSExecCmdLogObject (cmd : exec.Cmd)
| any_Interpreter (i : option Interpreter.t).

Record Attr := { Key : string; Val : Value }.

Definition String (key value : string) : Attr :=
  {| Key := key; Val := StringValue value |}.
Definition Int (key : string) (value : Z) : Attr :=
  {| Key := key; Val := IntValue value |}.
Definition Time (key : string) (v : time_Time) : Attr :=
  {| Key := key; Val := TimeValue v |}.
Definition Duration (key : string) (v : time_Duration) : Attr :=
  {| Key := key; Val := DurationValue v |}.
Definition Any (key : string) (value : any) : Attr :=
  {| Key := key; Val := AnyValue value |}.

(** An [Attr] passed as one of the [...any] arguments of a log call. *)
Definition arg (a : Attr) : any := any_Attr (Key a) (Val a).

Definition badKey : string := "!BADKEY".

(** The attributes a logger makes of the [...any] arguments of a log call:
    an Attr stands for itself, a string is the key of the argument that
    follows it, and anything else gets the key [badKey]. *)
Fixpoint argsToAttrs (args : list any) : list Attr :=
  match args with
  | [] => []
  | any_Attr k v :: rest => {| Key := k; Val := v |} :: argsToAttrs rest
  | [any_string x] => [String badKey x]
  | any_string x :: v :: rest => Any x v :: argsToAttrs rest
  | x :: rest => Any badKey x :: argsToAttrs rest
  end.

Definition keys (attrs : list Attr) : list string := map Key attrs.

(** The value of the first attribute with the given key. *)
Fixpoint lookup (key : string) (attrs : list Attr) : option Value :=
  match attrs with
  | [] => None
  | a :: rest => if String.eqb (Key a) key then Some (Val a) else lookup key rest
  end.
End slog.

(** An [error] converted to [any]: a nil error is the nil interface. *)
Definition any_of_error (err : error) : slog.any :=
  match err with
  | None => slog.any_nil
  | Some v => slog.any_error v
  end.

(** ** Program state and the monad of effectful calls *)

Section State.
Context `{Platform}.

(** A record handed to a logger: through a [*slog.Logger] the code holds,
    or through the package-level functions of slog, which use the
    process-wide default logger. *)
Inductive Sink :=
| ViaLogger (l : Logger)
| ViaDefault.

Record LogRecord := {
  sink : Sink;
  level : slog.Level;
  message : string;
  args : list slog.any
}.

Record State := {
  world : World;
  clock : time_Time;
  records : list LogRecord
}.

(** A call returns a value in a state, or it panics; the panic carries the
    state in which it happened. *)
Inductive Result (A : Type) :=
| Returned (a : A) (s : State)
| Panicked (s : State).

Definition M (A : Type) : Type := State -> Result A.
End State.

Arguments Returned {_ A} a s.
Arguments Panicked {_ A} s.

Section Monad.
Context `{Platform}.

Definition ret {A} (a : A) : M A := fun s => Returned a s.

Definition bind {A B} (m : M A) (k : A -> M B) : M B :=
  fun s =>
    match m s with
    | Returned a s' => k a s'
    | Panicked s' => Panicked s'
    end.

Definition panic {A} : M A := fun s => Panicked s.

(** The record is appended to what the loggers have received. *)
Definition emit (r : LogRecord) : M unit :=
  fun s =>
    Returned tt {| world := world s; clock := clock s;
                   records := records s ++ [r] |}.

(** [time.Now()] and [time.Since(start)]. *)
Definition time_Now : M time_Time := fun s => Returned (clock s) s.
Definition time_Since (start : time_Time) : M time_Duration :=
  fun s => Returned (clock s - start) s.

(** [logger.Error(msg, args...)] and [logger.Info(msg, args...)] on a
    [*slog.Logger]: the methods read the logger's handler, so a nil
    receiver panics. *)
Definition Logger_log (logger : option Logger) (lvl : slog.Level)
    (msg : string) (a : list slog.any) : M unit :=
  match logger with
  | None => panic
  | Some l =>
      emit {| sink := ViaLogger l; level := lvl; message := msg; args := a |}
  end.
Definition Logger_Error logger msg a := Logger_log logger slog.LevelError msg a.
Definition Logger_Info logger msg a := Logger_log logger slog.LevelInfo msg a.

(** [slog.Error(msg, args...)] and [slog.Info(msg, args...)]. *)
Definition slog_Error (msg : string) (a : list slog.any) : M unit :=
  emit {| sink := ViaDefault; level := slog.LevelError; message := msg; args := a |}.
Definition slog_Info (msg : string) (a : list slog.any) : M unit :=
  emit {| sink := ViaDefault; level := slog.LevelInfo; message := msg; args := a |}.
End Monad.

Notation "x <- m ;; k" := (bind m (fun x => k))
  (at level 61, m at next level, right associativity).
Notation "m ;;; k" := (bind m (fun _ => k))
  (at level 61, right associativity).

(** ** Package chezmoilog *)

Module chezmoilog.
Definition few : nat := 64.

(** [FirstFewBytes] returns the first few bytes of data in a
    human-readable form. *)
Definition FirstFewBytes (data : bytes) : bytes :=
  if (few <? List.length data)%nat
  then List.firstn few data ++ [x2e; x2e; x2e]
  else data.

(** [Output] returns the first few bytes of output if err is nil,
    otherwise it returns the full output. *)
Definition Output (data : bytes) (err : error) : bytes :=
  match err with
  | Some _ => data
  | None => FirstFewBytes data
  end.

Section InfoOrError.
Context `{Platform}.

Definition InfoOrError (logger : option Logger) (msg : string)
    (err : error) (a : list slog.any) : M unit :=
  match logger, err with
  | None, _ => ret tt
  | Some _, Some e =>
      Logger_Error logger msg ([slog.any_string "err"; slog.any_error e] ++ a)
  | Some _, None => Logger_Info logger msg a
  end.
End InfoOrError.

Definition AppendExitErrorAttrs (attrs : list slog.Attr) (err : error)
    : list slog.Attr :=
  match errors.As_ExitError err with
  | None => attrs ++ [slog.Any "err" (any_of_error err)]
  | Some execExitError =>
      match exec.ProcessState execExitError with
      | Some p =>
          let attrs :=
            if os.Exited p
            then attrs ++ [slog.Int "exitCode" (os.ExitCode p)]
            else attrs ++ [slog.Int "pid" (os.Pid p)] in
          let attrs :=
            if os.UserTime p =? 0 then attrs
            else attrs ++ [slog.Duration "userTime" (os.UserTime p)] in
          let attrs :=
            if os.SystemTime p =? 0 then attrs
            else attrs ++ [slog.Duration "systemTime" (os.SystemTime p)] in
          attrs
      | None => attrs
      end
  end.

(** [Stringer(key, s)] is [slog.String(key, s.String())]; the paths this
    code logs are carried as the text their String method returns. *)
Definition Stringer (key : string) (s : string) : slog.Attr :=
  slog.String key s.
End chezmoilog.

(** ** Package chezmoi: the wrapped interfaces *)

(** Paths are carried as the text their String method returns. *)
Definition AbsPath := string.
Definition RelPath := string.

(** [fs.FileMode] is a uint32; [int(mode)] keeps its value. *)
Definition fs_FileMode := N.
Definition int_of_FileMode (mode : fs_FileMode) : Z := Z.of_N mode.

(** [len(data)] as an int. *)
Definition len (data : bytes) : Z := Z.of_nat (List.length data).

Module RunScriptOptions.
Record t := {
  Interpreter : option Interpreter.t;
  Condition : string
}.
End RunScriptOptions.

Notation "' ( a , b ) <- m ;; k" := (bind m (fun x => let '(a, b) := x in k))
  (at level 61, a name, b name, m at next level, right associativity).

(** A System reads from and writes to a filesystem and runs commands. *)
Module System.
Section System.
Context `{Platform}.

Record t := {
  Chtimes : AbsPath -> time_Time -> time_Time -> M error;
  Chmod : AbsPath -> fs_FileMode -> M error;
  Glob : string -> M (list string * error);
  Link : AbsPath -> AbsPath -> M error;
  Lstat : AbsPath -> M (fs_FileInfo * error);
  Mkdir : AbsPath -> fs_FileMode -> M error;
  RawPath : AbsPath -> M (AbsPath * error);
  ReadDir : AbsPath -> M (list fs_DirEntry * error);
  ReadFile : AbsPath -> M (bytes * error);
  Readlink : AbsPath -> M (string * error);
  Remove : AbsPath -> M error;
  RemoveAll : AbsPath -> M error;
  Rename : AbsPath -> AbsPath -> M error;
  RunCmd : exec.Cmd -> M error;
  RunScript : RelPath -> AbsPath -> bytes -> RunScriptOptions.t -> M error;
  Stat : AbsPath -> M (fs_FileInfo * error);
  UnderlyingFS : M vfs_FS;
  WriteFile : AbsPath -> bytes -> fs_FileMode -> M error;
  WriteSymlink : string -> AbsPath -> M error
}.
End System.
End System.

(** A PersistentState is a bucketed key-value store.  [Set_] is the
    interface's Set. *)
Module PersistentState.
Section PersistentState.
Context `{Platform}.

Record t := {
  Close : M error;
  CopyTo : PersistentState_ref -> M error;
  Data : M (slog.any * error);
  Delete : bytes -> bytes -> M error;
  DeleteBucket : bytes -> M error;
  ForEach : bytes -> (bytes -> bytes -> M error) -> M error;
  Get : bytes -> bytes -> M (bytes * error);
  Set_ : bytes -> bytes -> bytes -> M error
}.
End PersistentState.
End PersistentState.

(** ** DebugPersistentState *)

(** A DebugPersistentState logs calls to a PersistentState. *)
Module DebugPersistentState.
Section DebugPersistentState.
Context `{Platform}.
Import slog.

Record t := {
  logger : option Logger;
  persistentState : PersistentState.t
}.

Definition NewDebugPersistentState (persistentState : PersistentState.t)
    (logger : option Logger) : t :=
  {| logger := logger; persistentState := persistentState |}.

Definition Close (s : t) : M error :=
  err <- PersistentState.Close (persistentState s) ;;
  chezmoilog.InfoOrError (logger s) "Close" err [] ;;;
  ret err.

Definition CopyTo (s : t) (p : PersistentState_ref) : M error :=
  err <- PersistentState.CopyTo (persistentState s) p ;;
  chezmoilog.InfoOrError (logger s) "CopyTo" err [] ;;;
  ret err.

Definition Data (s : t) : M (any * error) :=
  '(data, err) <- PersistentState.Data (persistentState s) ;;
  chezmoilog.InfoOrError (logger s) "Data" err [any_string "data"; data] ;;;
  ret (data, err).

Definition Delete (s : t) (bucket key : bytes) : M error :=
  err <- PersistentState.Delete (persistentState s) bucket key ;;
  chezmoilog.InfoOrError (logger s) "Delete" err
    [any_string "bucket"; any_bytes bucket; any_string "key"; any_bytes key] ;;;
  ret err.

Definition DeleteBucket (s : t) (bucket : bytes) : M error :=
  err <- PersistentState.DeleteBucket (persistentState s) bucket ;;
  chezmoilog.InfoOrError (logger s) "DeleteBucket" err
    [any_string "bucket"; any_bytes bucket] ;;;
  ret err.

(** The function literal ForEach hands to the wrapped ForEach. *)
Definition ForEach_func (s : t) (bucket : bytes) (fn : bytes -> bytes -> M error)
    (k v : bytes) : M error :=
  err <- fn k v ;;
  chezmoilog.InfoOrError (logger s) "ForEach" err
    [any_string "bucket"; any_bytes bucket; any_string "key"; any_bytes k;
     any_string "value"; any_bytes v] ;;;
  ret err.

Definition ForEach (s : t) (bucket : bytes) (fn : bytes -> bytes -> M error)
    : M error :=
  err <- PersistentState.ForEach (persistentState s) bucket
           (ForEach_func s bucket fn) ;;
  chezmoilog.InfoOrError (logger s) "ForEach" err
    [any_string "bucket"; any_bytes bucket] ;;;
  ret err.

Definition Get (s : t) (bucket key : bytes) : M (bytes * error) :=
  '(value, err) <- PersistentState.Get (persistentState s) bucket key ;;
  chezmoilog.InfoOrError (logger s) "Get" err
    [any_string "bucket"; any_bytes bucket; any_string "key"; any_bytes key;
     any_string "value"; any_bytes value] ;;;
  ret (value, err).

Definition Set_ (s : t) (bucket key value : bytes) : M error :=
  err <- PersistentState.Set_ (persistentState s) bucket key value ;;
  chezmoilog.InfoOrError (logger s) "Set" err
    [any_string "bucket"; any_bytes bucket; any_string "key"; any_bytes key;
     any_string "value"; any_bytes value] ;;;
  ret err.
End DebugPersistentState.
End DebugPersistentState.

(** ** DebugSystem *)

(** A DebugSystem logs all calls to a System. *)
Module DebugSystem.
Section DebugSystem.
Context `{Platform}.
Import slog.

Record t := {
  logger : option Logger;
  system : System.t
}.

Definition NewDebugSystem (system : System.t) (logger : option Logger) : t :=
  {| logger := logger; system := system |}.

Definition Chtimes (s : t) (name : AbsPath) (atime mtime : time_Time) : M error :=
  err <- System.Chtimes (system s) name atime mtime ;;
  chezmoilog.InfoOrError (logger s) "Chtimes" err
    [arg (chezmoilog.Stringer "name" name);
     arg (Time "atime" atime);
     arg (Time "mtime" mtime)] ;;;
  ret err.

Definition Chmod (s : t) (name : AbsPath) (mode : fs_FileMode) : M error :=
  err <- System.Chmod (system s) name mode ;;
  chezmoilog.InfoOrError (logger s) "Chmod" err
    [arg (chezmoilog.Stringer "name" name);
     arg (Int "mode" (int_of_FileMode mode))] ;;;
  ret err.

Definition Glob (s : t) (name : string) : M (list string * error) :=
  '(matches, err) <- System.Glob (system s) name ;;
  chezmoilog.InfoOrError (logger s) "Glob" err
    [arg (String "name" name);
     arg (Any "matches" (any_strings matches))] ;;;
  ret (matches, err).

Definition Link (s : t) (oldpath newpath : AbsPath) : M error :=
  err <- System.Link (system s) oldpath newpath ;;
  chezmoilog.InfoOrError (logger s) "Link" err
    [arg (chezmoilog.Stringer "oldpath" oldpath);
     arg (chezmoilog.Stringer "newpath" newpath)] ;;;
  ret err.

Definition Lstat (s : t) (name : AbsPath) : M (fs_FileInfo * error) :=
  '(fileInfo, err) <- System.Lstat (system s) name ;;
  chezmoilog.InfoOrError (logger s) "Lstat" err
    [arg (chezmoilog.Stringer "name" name)] ;;;
  ret (fileInfo, err).

Definition Mkdir (s : t) (name : AbsPath) (perm : fs_FileMode) : M error :=
  err <- System.Mkdir (system s) name perm ;;
  chezmoilog.InfoOrError (logger s) "Mkdir" err
    [arg (chezmoilog.Stringer "name" name);
     arg (Int "perm" (int_of_FileMode perm))] ;;;
  ret err.

Definition RawPath (s : t) (path : AbsPath) : M (AbsPath * error) :=
  System.RawPath (system s) path.

Definition ReadDir (s : t) (name : AbsPath) : M (list fs_DirEntry * error) :=
  '(dirEntries, err) <- System.ReadDir (system s) name ;;
  chezmoilog.InfoOrError (logger s) "ReadDir" err
    [arg (chezmoilog.Stringer "name" name)] ;;;
  ret (dirEntries, err).

Definition ReadFile (s : t) (name : AbsPath) : M (bytes * error) :=
  '(data, err) <- System.ReadFile (system s) name ;;
  match err with
  | Some _ =>
      Logger_Error (logger s) "ReadFile" [arg (Any "err" (any_of_error err))]
  | None =>
      Logger_Info (logger s) "ReadFile"
        [arg (String "data" (string_of_bytes (chezmoilog.Output data err)));
         arg (Int "size" (len data))]
  end ;;;
  ret (data, err).

Definition Readlink (s : t) (name : AbsPath) : M (string * error) :=
  '(linkname, err) <- System.Readlink (system s) name ;;
  match err with
  | Some _ =>
      Logger_Error (logger s) "ReadLink" [arg (Any "err" (any_of_error err))]
  | None =>
      Logger_Info (logger s) "ReadLink" [arg (String "linkname" linkname)]
  end ;;;
  ret (linkname, err).

Definition Remove (s : t) (name : AbsPath) : M error :=
  err <- System.Remove (system s) name ;;
  chezmoilog.InfoOrError (logger s) "Remove" err
    [arg (chezmoilog.Stringer "name" name)] ;;;
  ret err.

Definition RemoveAll (s : t) (name : AbsPath) : M error :=
  err <- System.RemoveAll (system s) name ;;
  chezmoilog.InfoOrError (logger s) "RemoveAll" err
    [arg (chezmoilog.Stringer "name" name)] ;;;
  ret err.

Definition Rename (s : t) (oldpath newpath : AbsPath) : M error :=
  err <- System.Rename (system s) oldpath newpath ;;
  chezmoilog.InfoOrError (logger s) "RemoveAll" err
    [arg (chezmoilog.Stringer "oldpath" oldpath);
     arg (chezmoilog.Stringer "newpath" newpath)] ;;;
  ret err.

Definition RunCmd (s : t) (cmd : exec.Cmd) : M error :=
  start <- time_Now ;;
  err <- System.RunCmd (system s) cmd ;;
  duration <- time_Since start ;;
  let attrs :=
    [arg (Any "cmd" (any_OSExecCmdLogObject cmd));
     arg (Duration "duration" duration)] in
  let attrs := attrs ++ map arg (chezmoilog.AppendExitErrorAttrs [] err) in
  match err with
  | Some _ => slog_Error "RunCmd" attrs
  | None => slog_Info "RunCmd" attrs
  end ;;;
  ret err.

Definition RunScript (s : t) (scriptname : RelPath) (dir : AbsPath)
    (data : bytes) (options : RunScriptOptions.t) : M error :=
  err <- System.RunScript (system s) scriptname dir data options ;;
  let attrs :=
    [arg (chezmoilog.Stringer "scriptname" scriptname);
     arg (chezmoilog.Stringer "dir" dir);
     arg (String "data" (string_of_bytes (chezmoilog.Output data err)));
     arg (Any "interpreter"
            (any_Interpreter (RunScriptOptions.Interpreter options)));
     arg (String "condition" (RunScriptOptions.Condition options))] in
  let attrs := attrs ++ map arg (chezmoilog.AppendExitErrorAttrs [] err) in
  match err with
  | Some _ => slog_Error "RunScript" attrs
  | None => slog_Info "RunScript" attrs
  end ;;;
  ret err.

Definition Stat (s : t) (name : AbsPath) : M (fs_FileInfo * error) :=
  '(fileInfo, err) <- System.Stat (system s) name ;;
  chezmoilog.InfoOrError (logger s) "Stat" err
    [arg (chezmoilog.Stringer "name" name)] ;;;
  ret (fileInfo, err).

Definition UnderlyingFS (s : t) : M vfs_FS :=
  System.UnderlyingFS (system s).

Definition WriteFile (s : t) (name : AbsPath) (data : bytes)
    (perm : fs_FileMode) : M error :=
  err <- System.WriteFile (system s) name data perm ;;
  chezmoilog.InfoOrError (logger s) "WriteFile" err
    [arg (chezmoilog.Stringer "name" name);
     arg (String "data" (string_of_bytes (chezmoilog.FirstFewBytes data)));
     arg (Int "perm" (int_of_FileMode perm));
     arg (Int "size" (len data))] ;;;
  ret err.

Definition WriteSymlink (s : t) (oldname : string) (newname : AbsPath) : M error :=
  err <- System.WriteSymlink (system s) oldname newname ;;
  chezmoilog.InfoOrError (logger s) "WriteSymlink" err
    [arg (String "oldname" oldname);
     arg (chezmoilog.Stringer "newname" newname)] ;;;
  ret err.
End DebugSystem.
End DebugSystem.

(** ** Calls through the interfaces *)

(** A call of a System method, indexed by the type of what it returns. *)
Section Calls.
Context `{Platform}.

Inductive SystemCall : Type -> Type :=
| CallChtimes (name : AbsPath) (atime mtime : time_Time) : SystemCall error
| CallChmod (name : AbsPath) (mode : fs_FileMode) : SystemCall error
| CallGlob (name : string) : SystemCall (list string * error)
| CallLink (oldpath newpath : AbsPath) : SystemCall error
| CallLstat (name : AbsPath) : SystemCall (fs_FileInfo * error)
| CallMkdir (name : AbsPath) (perm : fs_FileMode) : SystemCall error
| CallRawPath (path : AbsPath) : SystemCall (AbsPath * error)
| CallReadDir (name : AbsPath) : SystemCall (list fs_DirEntry * error)
| CallReadFile (name : AbsPath) : SystemCall (bytes * error)
| CallReadlink (name : AbsPath) : SystemCall (string * error)
| CallRemove (name : AbsPath) : SystemCall error
| CallRemoveAll (name : AbsPath) : SystemCall error
| CallRename (oldpath newpath : AbsPath) : SystemCall error
| CallRunCmd (cmd : exec.Cmd) : SystemCall error
| CallRunScript (scriptname : RelPath) (dir : AbsPath) (data : bytes)
    (options : RunScriptOptions.t) : SystemCall error
| CallStat (name : AbsPath) : SystemCall (fs_FileInfo * error)
| CallUnderlyingFS : SystemCall vfs_FS
| CallWriteFile (name : AbsPath) (data : bytes) (perm : fs_FileMode)
    : SystemCall error
| CallWriteSymlink (oldname : string) (newname : AbsPath) : SystemCall error.

(** The call made on a System. *)
Definition System_call (sys : System.t) {R} (c : SystemCall R) : M R :=
  match c in SystemCall R return M R with
  | CallChtimes name atime mtime => System.Chtimes sys name atime mtime
  | CallChmod name mode => System.Chmod sys name mode
  | CallGlob name => System.Glob sys name
  | CallLink oldpath newpath => System.Link sys oldpath newpath
  | CallLstat name => System.Lstat sys name
  | CallMkdir name perm => System.Mkdir sys name perm
  | CallRawPath path => System.RawPath sys path
  | CallReadDir name => System.ReadDir sys name
  | CallReadFile name => System.ReadFile sys name
  | CallReadlink name => System.Readlink sys name
  | CallRemove name => System.Remove sys name
  | CallRemoveAll name => System.RemoveAll sys name
  | CallRename oldpath newpath => System.Rename sys oldpath newpath
  | CallRunCmd cmd => System.RunCmd sys cmd
  | CallRunScript scriptname dir data options =>
      System.RunScript sys scriptname dir data options
  | CallStat name => System.Stat sys name
  | CallUnderlyingFS => System.UnderlyingFS sys
  | CallWriteFile name data perm => System.WriteFile sys name data perm
  | CallWriteSymlink oldname newname => System.WriteSymlink sys oldname newname
  end.

(** The same call made on a DebugSystem. *)
Definition DebugSystem_call (s : DebugSystem.t) {R} (c : SystemCall R) : M R :=
  match c in SystemCall R return M R with
  | CallChtimes name atime mtime => DebugSystem.Chtimes s name atime mtime
  | CallChmod name mode => DebugSystem.Chmod s name mode
  | CallGlob name => DebugSystem.Glob s name
  | CallLink oldpath newpath => DebugSystem.Link s oldpath newpath
  | CallLstat name => DebugSystem.Lstat s name
  | CallMkdir name perm => DebugSystem.Mkdir s name perm
  | CallRawPath path => DebugSystem.RawPath s path
  | CallReadDir name => DebugSystem.ReadDir s name
  | CallReadFile name => DebugSystem.ReadFile s name
  | CallReadlink name => DebugSystem.Readlink s name
  | CallRemove name => DebugSystem.Remove s name
  | CallRemoveAll name => DebugSystem.RemoveAll s name
  | CallRename oldpath newpath => DebugSystem.Rename s oldpath newpath
  | CallRunCmd cmd => DebugSystem.RunCmd s cmd
  | CallRunScript scriptname dir data options =>
      DebugSystem.RunScript s scriptname dir data options
  | CallStat name => DebugSystem.Stat s name
  | CallUnderlyingFS => DebugSystem.UnderlyingFS s
  | CallWriteFile name data perm => DebugSystem.WriteFile s name data perm
  | CallWriteSymlink oldname newname => DebugSystem.WriteSymlink s oldname newname
  end.

(** The calls in which DebugSystem calls a method of its logger itself,
    rather than through [chezmoilog.InfoOrError]. *)
Definition calls_logger_method {R} (c : SystemCall R) : bool :=
  match c with
  | CallReadFile _ | CallReadlink _ => true
  | _ => false
  end.

(** A call of a PersistentState method. *)
Inductive PersistentStateCall : Type -> Type :=
| CallClose : PersistentStateCall error
| CallCopyTo (p : PersistentState_ref) : PersistentStateCall error
| CallData : PersistentStateCall (slog.any * error)
| CallDelete (bucket key : bytes) : PersistentStateCall error
| CallDeleteBucket (bucket : bytes) : PersistentStateCall error
| CallForEach (bucket : bytes) (fn : bytes -> bytes -> M error)
    : PersistentStateCall error
| CallGet (bucket key : bytes) : PersistentStateCall (bytes * error)
| CallSet (bucket key value : bytes) : PersistentStateCall error.

Definition PersistentState_call (ps : PersistentState.t) {R}
    (c : PersistentStateCall R) : M R :=
  match c in PersistentStateCall R return M R with
  | CallClose => PersistentState.Close ps
  | CallCopyTo p => PersistentState.CopyTo ps p
  | CallData => PersistentState.Data ps
  | CallDelete bucket key => PersistentState.Delete ps bucket key
  | CallDeleteBucket bucket => PersistentState.DeleteBucket ps bucket
  | CallForEach bucket fn => PersistentState.ForEach ps bucket fn
  | CallGet bucket key => PersistentState.Get ps bucket key
  | CallSet bucket key value => PersistentState.Set_ ps bucket key value
  end.

Definition DebugPersistentState_call (s : DebugPersistentState.t) {R}
    (c : PersistentStateCall R) : M R :=
  match c in PersistentStateCall R return M R with
  | CallClose => DebugPersistentState.Close s
  | CallCopyTo p => DebugPersistentState.CopyTo s p
  | CallData => DebugPersistentState.Data s
  | CallDelete bucket key => DebugPersistentState.Delete s bucket key
  | CallDeleteBucket bucket => DebugPersistentState.DeleteBucket s bucket
  | CallForEach bucket fn => DebugPersistentState.ForEach s bucket fn
  | CallGet bucket key => DebugPersistentState.Get s bucket key
  | CallSet bucket key value => DebugPersistentState.Set_ s bucket key value
  end.

(** The call a DebugPersistentState makes on the state it wraps: the same
    call, where ForEach passes on its own function literal around fn. *)
Definition forwarded (s : DebugPersistentState.t) {R}
    (c : PersistentStateCall R) : PersistentStateCall R :=
  match c in PersistentStateCall R return PersistentStateCall R with
  | CallForEach bucket fn =>
      CallForEach bucket (DebugPersistentState.ForEach_func s bucket fn)
  | c' => c'
  end.

(** The state after record r has been handed to its logger. *)
Definition logged (st : State) (r : LogRecord) : State :=
  {| world := world st; clock := clock st; records := records st ++ [r] |}.

(** Modelled from the spec: the ForEach of an underlying store that holds
    the given entries, which is not part of these files.  It visits the
    entries in order, calls fn on each, and halts at the first error fn
    returns, which it returns. *)
Fixpoint visit (entries : list (bytes * bytes))
    (fn : bytes -> bytes -> M error) : M error :=
  match entries with
  | [] => ret None
  | (k, v) :: rest =>
      err <- fn k v ;;
      match err with
      | Some _ => ret err
      | None => visit rest fn
      end
  end.
End Calls.

(** ** Test doubles *)

(** A platform whose world is the list of keys a callback has been called
    on, and whose loggers are numbered. *)
Definition testPlatform : Platform :=
  {| World := list bytes;
     Logger := nat;
     fs_FileInfo := unit;
     fs_DirEntry := unit;
     vfs_FS := unit;
     PersistentState_ref := unit;
     exec_LookPath := fun name => name |}.

Definition testLogger : @Logger testPlatform := 1%nat.

Definition testState : @State testPlatform :=
  @Build_State testPlatform (@nil bytes) 0 [].

(** A System each of whose calls takes the given time and returns the given
    data and error. *)
Definition mockSystem (elapsed : time_Duration) (data : bytes) (err : error)
    : @System.t testPlatform :=
  let tick {A} (a : A) : @M testPlatform A :=
    fun st =>
      Returned a {| world := world st; clock := clock st + elapsed;
                    records := records st |} in
  {| System.Chtimes := fun _ _ _ => tick err;
     System.Chmod := fun _ _ => tick err;
     System.Glob := fun _ => tick ([], err);
     System.Link := fun _ _ => tick err;
     System.Lstat := fun _ => tick (tt, err);
     System.Mkdir := fun _ _ => tick err;
     System.RawPath := fun path => tick (path, err);
     System.ReadDir := fun _ => tick ([], err);
     System.ReadFile := fun _ => tick (data, err);
     System.Readlink := fun _ => tick (string_of_bytes data, err);
     System.Remove := fun _ => tick err;
     System.RemoveAll := fun _ => tick err;
     System.Rename := fun _ _ => tick err;
     System.RunCmd := fun _ => tick err;
     System.RunScript := fun _ _ _ _ => tick err;
     System.Stat := fun _ => tick (tt, err);
     System.UnderlyingFS := tick tt;
     System.WriteFile := fun _ _ _ => tick err;
     System.WriteSymlink := fun _ _ => tick err |}.

(** A PersistentState that holds the given entries; its other calls return
    the given error. *)
Definition mockPersistentState (entries : list (bytes * bytes)) (err : error)
    : @PersistentState.t testPlatform :=
  {| PersistentState.Close := ret err;
     PersistentState.CopyTo := fun _ => ret err;
     PersistentState.Data := ret (slog.any_nil, err);
     PersistentState.Delete := fun _ _ => ret err;
     PersistentState.DeleteBucket := fun _ => ret err;
     PersistentState.ForEach := fun _ fn => visit entries fn;
     PersistentState.Get := fun _ _ => ret ([], err);
     PersistentState.Set_ := fun _ _ _ => ret err |}.

Fixpoint bytes_eqb (a b : bytes) : bool :=
  match a, b with
  | [], [] => true
  | x :: a', y :: b' => Byte.eqb x y && bytes_eqb a' b'
  | _, _ => false
  end.

(** A callback that notes the key it is called on in the world, and fails
    with e on the key failOn. *)
Definition noteKey (failOn : bytes) (e : error_value) (k v : bytes)
    : @M testPlatform error :=
  fun st =>
    Returned (if bytes_eqb k failOn then Some e else None)
      (@Build_State testPlatform (world st ++ [k]) (clock st) (records st)).

Definition keyA : bytes := [x41].
Definition keyB : bytes := [x42].
Definition keyC : bytes := [x43].
Definition val1 : bytes := [x31].
Definition val2 : bytes := [x32].
Definition val3 : bytes := [x33].

(** A process that exited with code 2, and one killed by signal 9. *)
Definition exited2 : os.ProcessState :=
  {| os.pid := 4242; os.status := WExited 2; os.utime := 1500; os.stime := 0 |}.
Definition killed9 : os.ProcessState :=
  {| os.pid := 4243; os.status := WSignaled 9; os.utime := 0; os.stime := 700 |}.
Definition exitErrorOf (p : os.ProcessState) : error :=
  Some (WrapError "run"
          (ExecExitError {| exec.ProcessState := Some p; exec.Stderr := [] |})).

Definition someError : error_value := OtherError "permission denied".

(** A hundred zero bytes. *)
Definition data100 : bytes := List.repeat x00 100.

(** A DebugSystem with the test logger around a System whose calls take 5ns and
    return the given error. *)
Definition testDebugSystem (err : error) : @DebugSystem.t testPlatform :=
  DebugSystem.NewDebugSystem (mockSystem 5 data100 err) (Some testLogger).

(** A DebugPersistentState with the test logger around a store that holds the
    entries A, B and C. *)
Definition testDebugPersistentState : @DebugPersistentState.t testPlatform :=
  DebugPersistentState.NewDebugPersistentState
    (mockPersistentState [(keyA, val1); (keyB, val2); (keyC, val3)] None)
    (Some testLogger).

Definition noOptions : RunScriptOptions.t :=
  {| RunScriptOptions.Interpreter := None; RunScriptOptions.Condition := "" |}.


(** ** The rest of package chezmoilog *)

(** [p.Success()]: the process exited with status 0. *)
Definition os_Success (p : os.ProcessState) : bool :=
  match os.status p with
  | WExited c => c =? 0
  | WSignaled _ => false
  end.

(** The value [slog.GroupValue(attrs...)] returns. *)
Inductive slog_Group :=
| slog_GroupValue (attrs : list slog.Attr).

Definition group_attrs (g : slog_Group) : list slog.Attr :=
  match g with slog_GroupValue attrs => attrs end.

(** The log values of the objects that wrap an [*exec.Cmd] and an
    [*os.ProcessState]. *)
Module OSExecCmdLogObject.
Definition LogValuer (cmd : exec.Cmd) : slog_Group :=
  let attrs := [] in
  let attrs :=
    if String.eqb (exec.Path cmd) "" then attrs
    else attrs ++ [slog.String "path" (exec.Path cmd)] in
  let attrs :=
    if (List.length (exec.Args cmd) =? 0)%nat then attrs
    else attrs ++ [slog.Any "args" (slog.any_strings (exec.Args cmd))] in
  let attrs :=
    if String.eqb (exec.Dir cmd) "" then attrs
    else attrs ++ [slog.String "dir" (exec.Dir cmd)] in
  let attrs :=
    if (List.length (exec.Env cmd) =? 0)%nat then attrs
    else attrs ++ [slog.Any "env" (slog.any_strings (exec.Env cmd))] in
  slog_GroupValue attrs.
End OSExecCmdLogObject.

Module OSProcessStateLogObject.
Definition LogValue (p : option os.ProcessState) : slog_Group :=
  let attrs := [] in
  match p with
  | Some p =>
      let attrs :=
        if os.Exited p then
          if negb (os_Success p)
          then attrs ++ [slog.Int "exitCode" (os.ExitCode p)]
          else attrs
        else attrs ++ [slog.Int "pid" (os.Pid p)] in
      let attrs :=
        if os.UserTime p =? 0 then attrs
        else attrs ++ [slog.Duration "userTime" (os.UserTime p)] in
      let attrs :=
        if os.SystemTime p =? 0 then attrs
        else attrs ++ [slog.Duration "systemTime" (os.SystemTime p)] in
      slog_GroupValue attrs
  | None => slog_GroupValue attrs
  end.
End OSProcessStateLogObject.

(** net/http, as far as LogHTTPRequest looks into it: the request's method
    and its URL, a [*url.URL] that may be nil and is carried as the text
    its String method returns, and the response's length and status. *)
Module http.
Record Request := {
  Method : string;
  URL : option string
}.

Record Response := {
  ContentLength : Z;
  Status : string;
  StatusCode : Z
}.
End http.

Section Environment.
Context `{Platform}.

(** The methods of [*exec.Cmd] that run the command. *)
Record CmdRunner := {
  cmd_Run : exec.Cmd -> M error;
  cmd_Start : exec.Cmd -> M error;
  cmd_Wait : exec.Cmd -> M error;
  cmd_Output : exec.Cmd -> M (bytes * error);
  cmd_CombinedOutput : exec.Cmd -> M (bytes * error)
}.

(** An [*http.Client]: Do returns a response, which may be nil, and an
    error. *)
Record http_Client := {
  client_Do : http.Request -> M (option http.Response * error)
}.
End Environment.

Module chezmoilog_wrappers.
Section LogCmd.
Context `{Platform}.
Variable os_exec : CmdRunner.
Import slog.

(** [Stringer(key, s)] for an s that is a pointer, here the [*url.URL] of a
    request: its String method reads through the pointer, so a nil one
    panics. *)
Definition Stringer_of_pointer (key : string) (s : option string)
    : M slog.Attr :=
  match s with
  | Some text => ret (chezmoilog.Stringer key text)
  | None => panic
  end.

(** [LogHTTPRequest] calls httpClient.Do, logs the result to logger, and
    returns the result. *)
Definition LogHTTPRequest (logger : option Logger) (client : http_Client)
    (req : http.Request) : M (option http.Response * error) :=
  start <- time_Now ;;
  '(resp, err) <- client_Do client req ;;
  duration <- time_Since start ;;
  url <- Stringer_of_pointer "url" (http.URL req) ;;
  let args :=
    [arg (Duration "duration" duration);
     arg (String "method" (http.Method req));
     arg url] in
  let args :=
    match resp with
    | Some resp =>
        args ++ [arg (Int "contentLength" (http.ContentLength resp));
                 arg (String "status" (http.Status resp));
                 arg (Int "statusCode" (http.StatusCode resp))]
    | None => args
    end in
  match err with
  | Some _ =>
      let args := args ++ [arg (Any "err" (any_of_error err))] in
      Logger_Error logger "HTTPRequest" args
  | None => Logger_Info logger "HTTPRequest" args
  end ;;;
  ret (resp, err).

(** [LogCmdCombinedOutput] calls cmd.CombinedOutput, logs the result, and
    returns the result. *)
Definition LogCmdCombinedOutput (cmd : exec.Cmd) : M (bytes * error) :=
  start <- time_Now ;;
  '(combinedOutput, err) <- cmd_CombinedOutput os_exec cmd ;;
  duration <- time_Since start ;;
  let attrs :=
    [arg (Any "cmd" (any_OSExecCmdLogObject cmd));
     arg (Duration "duration" duration);
     arg (Any "combinedOutput"
            (any_bytes (chezmoilog.Output combinedOutput err)));
     arg (Int "size" (len combinedOutput))] in
  let attrs := attrs ++ map arg (chezmoilog.AppendExitErrorAttrs [] err) in
  match err with
  | Some _ => slog_Error "Output" attrs
  | None => slog_Info "Output" attrs
  end ;;;
  ret (combinedOutput, err).

(** [LogCmdOutput] calls cmd.Output, logs the result, and returns the
    result. *)
Definition LogCmdOutput (cmd : exec.Cmd) : M (bytes * error) :=
  start <- time_Now ;;
  '(output, err) <- cmd_Output os_exec cmd ;;
  duration <- time_Since start ;;
  let attrs :=
    [arg (Any "cmd" (any_OSExecCmdLogObject cmd));
     arg (Duration "duration" duration);
     arg (Any "output" (any_bytes (chezmoilog.Output output err)));
     arg (Int "size" (len output))] in
  let attrs := attrs ++ map arg (chezmoilog.AppendExitErrorAttrs [] err) in
  match err with
  | Some _ => slog_Error "Output" attrs
  | None => slog_Info "Output" attrs
  end ;;;
  ret (output, err).

(** [LogCmdRun] calls cmd.Run, logs the result, and returns the result. *)
Definition LogCmdRun (cmd : exec.Cmd) : M error :=
  start <- time_Now ;;
  err <- cmd_Run os_exec cmd ;;
  duration <- time_Since start ;;
  let attrs :=
    [arg (Any "cmd" (any_OSExecCmdLogObject cmd));
     arg (Duration "duration" duration)] in
  let attrs := attrs ++ map arg (chezmoilog.AppendExitErrorAttrs [] err) in
  match err with
  | Some _ => slog_Error "Run" attrs
  | None => slog_Info "Run" attrs
  end ;;;
  ret err.

(** [LogCmdStart] calls cmd.Start, logs the result, and returns the
    result. *)
Definition LogCmdStart (cmd : exec.Cmd) : M error :=
  start <- time_Now ;;
  err <- cmd_Start os_exec cmd ;;
  let attrs :=
    [arg (Any "cmd" (any_OSExecCmdLogObject cmd));
     arg (Time "start" start)] in
  let attrs := attrs ++ map arg (chezmoilog.AppendExitErrorAttrs [] err) in
  match err with
  | Some _ => slog_Error "Start" attrs
  | None => slog_Info "Start" attrs
  end ;;;
  ret err.

(** [LogCmdWait] calls cmd.Wait, logs the result, and returns the result. *)
Definition LogCmdWait (cmd : exec.Cmd) : M error :=
  err <- cmd_Wait os_exec cmd ;;
  end_ <- time_Now ;;
  let attrs :=
    [arg (Any "cmd" (any_OSExecCmdLogObject cmd));
     arg (Time "end" end_)] in
  let attrs := attrs ++ map arg (chezmoilog.AppendExitErrorAttrs [] err) in
  match err with
  | Some _ => slog_Error "Wait" attrs
  | None => slog_Info "Wait" attrs
  end ;;;
  ret err.
End LogCmd.
End chezmoilog_wrappers.

(** ** What a call logs *)

Section Logged.
Context `{Platform}.

(** The level the code picks for an error. *)
Definition level_of (err : error) : slog.Level :=
  match err with
  | Some _ => slog.LevelError
  | None => slog.LevelInfo
  end.

(** The error among the results of a System call. *)
Definition SystemCall_error {R} (c : SystemCall R) : R -> error :=
  match c in SystemCall R return R -> error with
  | CallChtimes _ _ _ | CallChmod _ _ | CallLink _ _ | CallMkdir _ _
  | CallRemove _ | CallRemoveAll _ | CallRename _ _ | CallRunCmd _
  | CallRunScript _ _ _ _ | CallWriteFile _ _ _ | CallWriteSymlink _ _ =>
      fun err => err
  | CallGlob _ => snd
  | CallLstat _ => snd
  | CallRawPath _ => snd
  | CallReadDir _ => snd
  | CallReadFile _ => snd
  | CallReadlink _ => snd
  | CallStat _ => snd
  | CallUnderlyingFS => fun _ => None
  end.

(** The error among the results of a PersistentState call. *)
Definition PersistentStateCall_error {R} (c : PersistentStateCall R)
    : R -> error :=
  match c in PersistentStateCall R return R -> error with
  | CallClose | CallCopyTo _ | CallDelete _ _ | CallDeleteBucket _
  | CallForEach _ _ | CallSet _ _ _ => fun err => err
  | CallData => snd
  | CallGet _ _ => snd
  end.

(** The calls DebugSystem passes on without a log call. *)
Definition passes_through {R} (c : SystemCall R) : bool :=
  match c with
  | CallRawPath _ | CallUnderlyingFS => true
  | _ => false
  end.

(** The calls DebugSystem logs with the package-level functions of slog. *)
Definition logs_to_default {R} (c : SystemCall R) : bool :=
  match c with
  | CallRunCmd _ | CallRunScript _ _ _ _ => true
  | _ => false
  end.

(** The arguments of a log call of level-dependent shape: the error first
    when there is one. *)
Definition with_err (err : error) (a : list slog.any) : list slog.any :=
  match err with
  | Some e => slog.any_string "err" :: slog.any_error e :: a
  | None => a
  end.

(** The record ForEach's function literal emits for an entry, and the
    record ForEach emits for the whole call. *)
Definition entryRecord (l : Logger) (bucket : bytes)
    (x : bytes * bytes * error) : LogRecord :=
  let '(k, v, err) := x in
  {| sink := ViaLogger l; level := level_of err; message := "ForEach";
     args :=
       with_err err
         [slog.any_string "bucket"; slog.any_bytes bucket;
          slog.any_string "key"; slog.any_bytes k;
          slog.any_string "value"; slog.any_bytes v] |}.

Definition callRecord (l : Logger) (bucket : bytes) (err : error) : LogRecord :=
  {| sink := ViaLogger l; level := level_of err; message := "ForEach";
     args := with_err err [slog.any_string "bucket"; slog.any_bytes bucket] |}.

(** [Visits fn l bucket st seen st']: starting in the state st, the
    callback fn is called on the entries of seen in turn and returns, for
    each, the error noted with it; after each call the record of the entry
    is handed to the logger l, and the next call starts in the state this
    leaves; st' is the state at the end. *)
Inductive Visits (fn : bytes -> bytes -> M error) (l : Logger) (bucket : bytes)
    : State -> list (bytes * bytes * error) -> State -> Prop :=
| Visits_none (st : State) : Visits fn l bucket st [] st
| Visits_next (k v : bytes) (err : error) (st st1 : State)
    (seen : list (bytes * bytes * error)) (st' : State) :
    fn k v st = Returned err st1 ->
    Visits fn l bucket (logged st1 (entryRecord l bucket (k, v, err))) seen st' ->
    Visits fn l bucket st ((k, v, err) :: seen) st'.

(** The key and the value of a visited entry. *)
Definition entry_of (x : bytes * bytes * error) : bytes * bytes :=
  (fst (fst x), snd (fst x)).
End Logged.

(** ** A DebugSystem is a System *)

Section Implements.
Context `{Platform}.

(** The methods of a DebugSystem as the System they implement. *)
Definition DebugSystem_as_System (s : DebugSystem.t) : System.t :=
  {| System.Chtimes := DebugSystem.Chtimes s;
     System.Chmod := DebugSystem.Chmod s;
     System.Glob := DebugSystem.Glob s;
     System.Link := DebugSystem.Link s;
     System.Lstat := DebugSystem.Lstat s;
     System.Mkdir := DebugSystem.Mkdir s;
     System.RawPath := DebugSystem.RawPath s;
     System.ReadDir := DebugSystem.ReadDir s;
     System.ReadFile := DebugSystem.ReadFile s;
     System.Readlink := DebugSystem.Readlink s;
     System.Remove := DebugSystem.Remove s;
     System.RemoveAll := DebugSystem.RemoveAll s;
     System.Rename := DebugSystem.Rename s;
     System.RunCmd := DebugSystem.RunCmd s;
     System.RunScript := DebugSystem.RunScript s;
     System.Stat := DebugSystem.Stat s;
     System.UnderlyingFS := DebugSystem.UnderlyingFS s;
     System.WriteFile := DebugSystem.WriteFile s;
     System.WriteSymlink := DebugSystem.WriteSymlink s |}.
End Implements.

(** ** More test doubles *)

(** Commands that take the given time to run and return the given output
    and error. *)
Definition mockRunner (elapsed : time_Duration) (output : bytes) (err : error)
    : @CmdRunner testPlatform :=
  let tick {A} (a : A) : @M testPlatform A :=
    fun st =>
      Returned a (@Build_State testPlatform (world st) (clock st + elapsed)
                    (records st)) in
  {| cmd_Run := fun _ => tick err;
     cmd_Start := fun _ => tick err;
     cmd_Wait := fun _ => tick err;
     cmd_Output := fun _ => tick (output, err);
     cmd_CombinedOutput := fun _ => tick (output, err) |}.

(** A client whose round trip takes 7ns. *)
Definition mockClient (resp : option http.Response) (err : error)
    : @http_Client testPlatform :=
  {| client_Do := fun _ st =>
       Returned (resp, err)
         (@Build_State testPlatform (world st) (clock st + 7) (records st)) |}.

Definition getRequest : http.Request :=
  {| http.Method := "GET"; http.URL := Some "https://example.com/" |}.

(** A request without URL. *)
Definition noURLRequest : http.Request :=
  {| http.Method := "GET"; http.URL := None |}.

Definition notFound : http.Response :=
  {| http.ContentLength := 9; http.Status := "404 Not Found";
     http.StatusCode := 404 |}.

Definition lsCmd : exec.Cmd := @exec.Command testPlatform "ls" ["-l"].

(** A callback that notes the key in the world, takes 1ns, logs a record of
    its own through the default logger, and fails on B. *)
Definition chattyRecord (k : bytes) : @LogRecord testPlatform :=
  {| sink := ViaDefault; level := slog.LevelInfo; message := "callback";
     args := [slog.any_bytes k] |}.

Definition chattyCallback (k v : bytes) : @M testPlatform error :=
  fun st =>
    Returned (if bytes_eqb k keyB then Some someError else None)
      (@Build_State testPlatform (world st ++ [k]) (clock st + 1)
         (records st ++ [chattyRecord k])).

(** A callback that panics on B. *)
Definition panickyCallback (k v : bytes) : @M testPlatform error :=
  fun st => if bytes_eqb k keyB then Panicked st else Returned None st.


(* ================================================================= *)
(** * Properties *)

Section Properties.
Context `{Platform}.

(** [chezmoilog.InfoOrError] always returns, and changes nothing but the
    records. *)
Lemma InfoOrError_returns (logger : option Logger) msg err a (st : State) :
  exists st',
    chezmoilog.InfoOrError logger msg err a st = Returned tt st' /\
    world st' = world st /\ clock st' = clock st.
Proof.
  destruct logger as [l|], err as [e|]; cbn; eexists; repeat split.
Qed.

(** On a logger that is not nil InfoOrError hands over one record: at
    error level with the error put first, or at info level. *)
Lemma InfoOrError_non_nil (l : Logger) msg err a (st : State) :
  chezmoilog.InfoOrError (Some l) msg err a st =
  Returned tt
    (logged st
       match err with
       | Some e =>
           {| sink := ViaLogger l; level := slog.LevelError; message := msg;
              args := slog.any_string "err" :: slog.any_error e :: a |}
       | None =>
           {| sink := ViaLogger l; level := slog.LevelInfo; message := msg;
              args := a |}
       end).
Proof. destruct err; reflexivity. Qed.

Lemma InfoOrError_nil msg err a (st : State) :
  chezmoilog.InfoOrError None msg err a st = Returned tt st.
Proof. reflexivity. Qed.

(** Steps of the proofs about a decorated call: unfold the method, use what
    the wrapped call returned, and split the cases of the error. *)
Ltac forward_call Hinner :=
  cbn [System_call PersistentState_call forwarded] in Hinner;
  unfold bind, ret; rewrite Hinner.

Ltac after_InfoOrError :=
  match goal with
  | |- context [chezmoilog.InfoOrError ?l ?m ?e ?a ?s] =>
      let st' := fresh "st'" in
      let E := fresh "E" in
      let Hw := fresh "Hw" in
      let Hc := fresh "Hc" in
      destruct (InfoOrError_returns l m e a s) as (st' & E & Hw & Hc);
      rewrite E; exists st'; auto
  end.

Lemma DebugSystem_returns_inner (s : DebugSystem.t) R (c : SystemCall R)
    (st : State) (r : R) (st1 : State) :
  (DebugSystem.logger s = None -> calls_logger_method c = false) ->
  System_call (DebugSystem.system s) c st = Returned r st1 ->
  exists st',
    DebugSystem_call s c st = Returned r st' /\
    world st' = world st1 /\ clock st' = clock st1.
Proof.
  intros Hlogger Hinner.
  destruct c; cbn [DebugSystem_call];
    try (unfold DebugSystem.Chtimes, DebugSystem.Chmod, DebugSystem.Glob,
           DebugSystem.Link, DebugSystem.Lstat, DebugSystem.Mkdir,
           DebugSystem.ReadDir, DebugSystem.Remove, DebugSystem.RemoveAll,
           DebugSystem.Rename, DebugSystem.Stat, DebugSystem.WriteFile,
           DebugSystem.WriteSymlink;
         forward_call Hinner; try destruct r; after_InfoOrError).
  - (* RawPath *) exists st1. auto.
  - (* ReadFile *)
    unfold DebugSystem.ReadFile. forward_call Hinner.
    destruct r as [data err].
    destruct (DebugSystem.logger s) as [l|] eqn:El.
    + destruct err; cbn; eexists; repeat split.
    + specialize (Hlogger eq_refl). discriminate.
  - (* Readlink *)
    unfold DebugSystem.Readlink. forward_call Hinner.
    destruct r as [linkname err].
    destruct (DebugSystem.logger s) as [l|] eqn:El.
    + destruct err; cbn; eexists; repeat split.
    + specialize (Hlogger eq_refl). discriminate.
  - (* RunCmd *)
    unfold DebugSystem.RunCmd, time_Now, time_Since. forward_call Hinner.
    destruct r; cbn; eexists; repeat split.
  - (* RunScript *)
    unfold DebugSystem.RunScript. forward_call Hinner.
    destruct r; cbn; eexists; repeat split.
  - (* UnderlyingFS *) exists st1. auto.
Qed.

Lemma DebugPersistentState_returns_inner (s : DebugPersistentState.t) R
    (c : PersistentStateCall R) (st : State) (r : R) (st1 : State) :
  PersistentState_call (DebugPersistentState.persistentState s)
    (forwarded s c) st = Returned r st1 ->
  exists st',
    DebugPersistentState_call s c st = Returned r st' /\
    world st' = world st1 /\ clock st' = clock st1.
Proof.
  intros Hinner.
  destruct c; cbn [DebugPersistentState_call];
    unfold DebugPersistentState.Close, DebugPersistentState.CopyTo,
      DebugPersistentState.Data, DebugPersistentState.Delete,
      DebugPersistentState.DeleteBucket, DebugPersistentState.ForEach,
      DebugPersistentState.Get, DebugPersistentState.Set_;
    forward_call Hinner; try destruct r; after_InfoOrError.
Qed.

(** With a nil logger the decorated call ends in the very state the wrapped
    call ended in. *)
Lemma DebugPersistentState_nil_logger (ps : PersistentState.t) R
    (c : PersistentStateCall R) (st : State) (r : R) (st1 : State) :
  let s := DebugPersistentState.NewDebugPersistentState ps None in
  PersistentState_call ps (forwarded s c) st = Returned r st1 ->
  DebugPersistentState_call s c st = Returned r st1.
Proof.
  intros s Hinner.
  destruct c; cbn [DebugPersistentState_call];
    unfold DebugPersistentState.Close, DebugPersistentState.CopyTo,
      DebugPersistentState.Data, DebugPersistentState.Delete,
      DebugPersistentState.DeleteBucket, DebugPersistentState.ForEach,
      DebugPersistentState.Get, DebugPersistentState.Set_;
    cbn [DebugPersistentState.persistentState DebugPersistentState.logger s
         DebugPersistentState.NewDebugPersistentState];
    forward_call Hinner; try destruct r; reflexivity.
Qed.

(** Every call of a System or PersistentState operation on the decorator
    returns exactly what the wrapped implementation returned for the call
    the decorator forwarded to it, value and error alike, and leaves the
    world and the clock as the wrapped call left them, wherever the log
    call returns: for a DebugPersistentState with any logger, nil
    included, and for a DebugSystem except in ReadFile and Readlink with a
    nil logger. *)
Lemma decorators_return_inner_result :
  (forall (s : DebugSystem.t) R (c : SystemCall R) (st : State) (r : R)
          (st1 : State),
      (DebugSystem.logger s = None -> calls_logger_method c = false) ->
      System_call (DebugSystem.system s) c st = Returned r st1 ->
      exists st',
        DebugSystem_call s c st = Returned r st' /\
        world st' = world st1 /\ clock st' = clock st1) /\
  (forall (s : DebugPersistentState.t) R (c : PersistentStateCall R)
          (st : State) (r : R) (st1 : State),
      PersistentState_call (DebugPersistentState.persistentState s)
        (forwarded s c) st = Returned r st1 ->
      exists st',
        DebugPersistentState_call s c st = Returned r st' /\
        world st' = world st1 /\ clock st' = clock st1).
Proof.
  split.
  - intros. now apply DebugSystem_returns_inner.
  - intros. now apply DebugPersistentState_returns_inner.
Qed.

(** C1 (where the code departs from it). ReadFile and Readlink of a
    DebugSystem made with a nil logger do not return what the wrapped
    System returned: the wrapped call is made and returns, and the
    decorator then panics, in the state that call left, on the method it
    calls on its nil logger.  Every other logging method goes through
    InfoOrError, which returns at once on a nil logger. *)
Theorem C1_ReadFile_Readlink_panic_on_nil_logger (sys : System.t)
    (name : AbsPath) (st : State) :
  let s := DebugSystem.NewDebugSystem sys None in
  (forall data err st1,
      System.ReadFile sys name st = Returned (data, err) st1 ->
      DebugSystem.ReadFile s name st = Panicked st1 /\
      forall st', DebugSystem.ReadFile s name st <> Returned (data, err) st') /\
  (forall linkname err st1,
      System.Readlink sys name st = Returned (linkname, err) st1 ->
      DebugSystem.Readlink s name st = Panicked st1 /\
      forall st',
        DebugSystem.Readlink s name st <> Returned (linkname, err) st').
Proof.
  intros s. split.
  - intros data err st1 Hinner.
    assert (Hpanic : DebugSystem.ReadFile s name st = Panicked st1).
    { unfold DebugSystem.ReadFile, bind.
      cbn [s DebugSystem.system DebugSystem.logger DebugSystem.NewDebugSystem].
      rewrite Hinner. destruct err; reflexivity. }
    split; [exact Hpanic |]. intros st'. rewrite Hpanic. discriminate.
  - intros linkname err st1 Hinner.
    assert (Hpanic : DebugSystem.Readlink s name st = Panicked st1).
    { unfold DebugSystem.Readlink, bind.
      cbn [s DebugSystem.system DebugSystem.logger DebugSystem.NewDebugSystem].
      rewrite Hinner. destruct err; reflexivity. }
    split; [exact Hpanic |]. intros st'. rewrite Hpanic. discriminate.
Qed.

(** C2. Output with a nil error leaves data of at most 64 bytes unchanged
    and cuts longer data to its first 64 bytes followed by the three bytes
    of the marker, 67 bytes in all; with an error that is not nil it
    returns the data in full, whatever its length. *)
Theorem C2_Output_truncation (d : bytes) (e : error) :
  (e = None -> (List.length d <= 64)%nat -> chezmoilog.Output d e = d) /\
  (e = None -> (List.length d > 64)%nat ->
     chezmoilog.Output d e = List.firstn 64 d ++ [x2e; x2e; x2e] /\
     List.length (chezmoilog.Output d e) = 67%nat) /\
  (e <> None -> chezmoilog.Output d e = d).
Proof.
  unfold chezmoilog.Output, chezmoilog.FirstFewBytes, chezmoilog.few.
  split; [| split].
  - intros -> Hlen.
    destruct (Nat.ltb_spec 64 (List.length d)); [lia | reflexivity].
  - intros -> Hlen.
    destruct (Nat.ltb_spec 64 (List.length d)); [| lia].
    split; [reflexivity |].
    rewrite List.length_app, List.firstn_length_le by lia. reflexivity.
  - intros He. destruct e; [reflexivity | congruence].
Qed.

(** C4. For an error that is, or wraps, a process-exit error with a process
    state, AppendExitErrorAttrs appends: for a process that exited with a
    code (2, say), an exitCode attribute with that code and no pid
    attribute; for a process that a signal ended before it exited, a pid
    attribute and no exitCode attribute; and in both cases a userTime
    (systemTime) duration attribute exactly when the user (system) CPU
    time is not zero. *)
Theorem C4_exit_error_attrs (attrs : list slog.Attr) (err : error)
    (execExitError : exec.ExitError) (p : os.ProcessState) :
  errors.As_ExitError err = Some execExitError ->
  exec.ProcessState execExitError = Some p ->
  exists added,
    chezmoilog.AppendExitErrorAttrs attrs err = attrs ++ added /\
    (forall code, os.status p = WExited code ->
       In (slog.Int "exitCode" code) added /\ ~ In "pid" (slog.keys added)) /\
    (forall signal, os.status p = WSignaled signal ->
       In (slog.Int "pid" (os.Pid p)) added /\
       ~ In "exitCode" (slog.keys added)) /\
    (In "userTime" (slog.keys added) <-> os.UserTime p <> 0) /\
    (os.UserTime p <> 0 ->
       In (slog.Duration "userTime" (os.UserTime p)) added) /\
    (In "systemTime" (slog.keys added) <-> os.SystemTime p <> 0) /\
    (os.SystemTime p <> 0 ->
       In (slog.Duration "systemTime" (os.SystemTime p)) added).
Proof.
  intros HAs Hp.
  unfold chezmoilog.AppendExitErrorAttrs. rewrite HAs, Hp.
  unfold os.Exited, os.ExitCode.
  exists
    ((match os.status p with
      | WExited c => [slog.Int "exitCode" c]
      | WSignaled _ => [slog.Int "pid" (os.Pid p)]
      end)
     ++ (if os.UserTime p =? 0 then []
         else [slog.Duration "userTime" (os.UserTime p)])
     ++ (if os.SystemTime p =? 0 then []
         else [slog.Duration "systemTime" (os.SystemTime p)])).
  split.
  { destruct (os.status p), (os.UserTime p =? 0), (os.SystemTime p =? 0);
      cbn; rewrite <- ?List.app_assoc, ?List.app_nil_r; reflexivity. }
  destruct (Z.eqb_spec (os.UserTime p) 0) as [Eu|Eu];
    destruct (Z.eqb_spec (os.SystemTime p) 0) as [Es|Es];
    destruct (os.status p) as [c|sg]; cbn;
    repeat split; intros;
    repeat match goal with
      | Hx : WExited _ = WExited _ |- _ => injection Hx as ->
      | Hx : WSignaled _ = WSignaled _ |- _ => injection Hx as ->
      | Hx : _ \/ _ |- _ => destruct Hx
      | Hx : False |- _ => destruct Hx
      end;
    try discriminate; try congruence; auto; try tauto;
    try (intuition discriminate).
Qed.

(** C8. With no interpreter (a nil interpreter, or one whose command name
    is empty) ExecCommand of deploy.sh is the command deploy.sh with no
    argument besides its name; with the interpreter sh -x it is the
    command sh with the arguments -x and deploy.sh, in that order: the
    configured arguments first, the script name last. *)
Theorem C8_interpreter_resolution :
  (forall i : option Interpreter.t,
      Interpreter.None i = true ->
      Interpreter.ExecCommand i "deploy.sh" = exec.Command "deploy.sh" [] /\
      exec.Args (Interpreter.ExecCommand i "deploy.sh") = ["deploy.sh"]) /\
  Interpreter.None None = true /\
  (forall a,
      Interpreter.None
        (Some {| Interpreter.Command := ""; Interpreter.Args := a |}) = true) /\
  (let sh := Some {| Interpreter.Command := "sh"; Interpreter.Args := ["-x"] |} in
   Interpreter.ExecCommand sh "deploy.sh" = exec.Command "sh" ["-x"; "deploy.sh"] /\
   exec.Args (Interpreter.ExecCommand sh "deploy.sh") = ["sh"; "-x"; "deploy.sh"]).
Proof.
  split; [| split; [reflexivity | split; [reflexivity | split; reflexivity]]].
  intros i Hnone.
  destruct i as [i|]; unfold Interpreter.ExecCommand; [rewrite Hnone |];
    split; reflexivity.
Qed.

(** C3. Let the wrapped store visit the entries A, B and C in that order,
    halting at the first error the function it is given returns, and let
    the caller's callback succeed on A and fail with e on B.  Then ForEach
    on the decorator calls the callback on A and on B only, hands its
    logger one record for A (info level) and one for B (error level, with
    e), followed by the record of the whole call, and returns e: the final
    state is the one the callback left after B plus these records, so that
    C is neither visited nor logged. *)
Theorem C3_ForEach_stops_at_failing_callback
    (s : DebugPersistentState.t) (l : Logger)
    (bucket kA vA kB vB kC vC : bytes) (fn : bytes -> bytes -> M error)
    (e : error_value) (st stA stB : State) :
  let element k v :=
    [slog.any_string "bucket"; slog.any_bytes bucket;
     slog.any_string "key"; slog.any_bytes k;
     slog.any_string "value"; slog.any_bytes v] in
  let recordA :=
    {| sink := ViaLogger l; level := slog.LevelInfo; message := "ForEach";
       args := element kA vA |} in
  let recordB :=
    {| sink := ViaLogger l; level := slog.LevelError; message := "ForEach";
       args := slog.any_string "err" :: slog.any_error e :: element kB vB |} in
  let summary :=
    {| sink := ViaLogger l; level := slog.LevelError; message := "ForEach";
       args := [slog.any_string "err"; slog.any_error e;
                slog.any_string "bucket"; slog.any_bytes bucket] |} in
  DebugPersistentState.logger s = Some l ->
  (forall f st0,
      PersistentState.ForEach (DebugPersistentState.persistentState s) bucket
        f st0
      = visit [(kA, vA); (kB, vB); (kC, vC)] f st0) ->
  fn kA vA st = Returned None stA ->
  fn kB vB (logged stA recordA) = Returned (Some e) stB ->
  DebugPersistentState.ForEach s bucket fn st
  = Returned (Some e) (logged (logged stB recordB) summary).
Proof.
  intros element recordA recordB summary Hlogger Hstore HA HB.
  subst element recordA recordB summary. unfold logged in *.
  unfold DebugPersistentState.ForEach.
  unfold bind at 1. rewrite Hstore, Hlogger.
  cbv [visit bind DebugPersistentState.ForEach_func].
  rewrite HA, Hlogger.
  cbv [chezmoilog.InfoOrError Logger_Info Logger_Error Logger_log emit ret].
  rewrite HB. reflexivity.
Qed.

(** Attributes passed as arguments come back as they are. *)
Lemma argsToAttrs_arg (attrs : list slog.Attr) :
  slog.argsToAttrs (map slog.arg attrs) = attrs.
Proof.
  induction attrs as [|[k v] attrs IH]; cbn; [reflexivity |].
  now rewrite IH.
Qed.

Lemma argsToAttrs_arg_app (attrs : list slog.Attr) (rest : list slog.any) :
  slog.argsToAttrs (map slog.arg attrs ++ rest)
  = attrs ++ slog.argsToAttrs rest.
Proof.
  induction attrs as [|[k v] attrs IH]; cbn; [reflexivity |].
  now rewrite IH.
Qed.

(** The keys AppendExitErrorAttrs adds are those of the exit status. *)
Lemma AppendExitErrorAttrs_keys (err : error) (key : string) :
  In key (slog.keys (chezmoilog.AppendExitErrorAttrs [] err)) ->
  In key ["err"; "exitCode"; "pid"; "userTime"; "systemTime"].
Proof.
  unfold chezmoilog.AppendExitErrorAttrs.
  destruct (errors.As_ExitError err) as [x|]; [| cbn; tauto].
  destruct (exec.ProcessState x) as [p|]; [| cbn; tauto].
  destruct (os.Exited p), (os.UserTime p =? 0), (os.SystemTime p =? 0);
    cbn; tauto.
Qed.

(** What the package-level log calls of RunCmd and RunScript emit. *)
Lemma slog_Error_or_Info (err : error) (msg : string) (a : list slog.any)
    (st : State) :
  match err with
  | Some _ => slog_Error msg a
  | None => slog_Info msg a
  end st
  = Returned tt
      (logged st
         {| sink := ViaDefault;
            level := match err with
                     | Some _ => slog.LevelError
                     | None => slog.LevelInfo
                     end;
            message := msg; args := a |}).
Proof. destruct err; reflexivity. Qed.

(** C5 (what the code does). The record a Rename call hands to the logger
    has the message RemoveAll, the name of another operation, whatever the
    paths and the outcome of the call. *)
Theorem C5_Rename_record_message (s : DebugSystem.t) (l : Logger)
    (oldpath newpath : AbsPath) (st : State) (err : error) (st1 : State) :
  DebugSystem.logger s = Some l ->
  System.Rename (DebugSystem.system s) oldpath newpath st = Returned err st1 ->
  exists r,
    DebugSystem.Rename s oldpath newpath st = Returned err (logged st1 r) /\
    message r = "RemoveAll" /\ message r <> "Rename".
Proof.
  intros Hlogger Hinner.
  unfold DebugSystem.Rename, bind. rewrite Hinner, Hlogger.
  rewrite InfoOrError_non_nil. eexists. split; [reflexivity |].
  destruct err; cbn; split; (reflexivity || discriminate).
Qed.

(** C6 (amended). The data sample WriteFile logs is FirstFewBytes of the
    data whether the wrapped call failed or succeeded: data of more than
    64 bytes is cut to its first 64 bytes and the marker in both cases. *)
Theorem C6_WriteFile_sample_always_truncated (s : DebugSystem.t) (l : Logger)
    (name : AbsPath) (data : bytes) (perm : fs_FileMode) (st : State)
    (err : error) (st1 : State) :
  DebugSystem.logger s = Some l ->
  System.WriteFile (DebugSystem.system s) name data perm st = Returned err st1 ->
  exists r,
    DebugSystem.WriteFile s name data perm st = Returned err (logged st1 r) /\
    slog.lookup "data" (slog.argsToAttrs (args r))
    = Some (slog.StringValue (string_of_bytes (chezmoilog.FirstFewBytes data))).
Proof.
  intros Hlogger Hinner.
  unfold DebugSystem.WriteFile, bind. rewrite Hinner, Hlogger.
  rewrite InfoOrError_non_nil. eexists. split; [reflexivity |].
  destruct err; reflexivity.
Qed.

(** C7 (amended). RunCmd reads the clock before it forwards the call, and
    the record it emits after the call has returned carries the duration
    attribute, the time elapsed since that reading.  RunScript reads no
    clock: its record carries scriptname, dir, data, interpreter and
    condition, then the exit-status attributes, and no duration. *)
Theorem C7_duration_logged_by_RunCmd_only (s : DebugSystem.t) :
  (forall cmd (st : State) err st1,
      System.RunCmd (DebugSystem.system s) cmd st = Returned err st1 ->
      exists r,
        DebugSystem.RunCmd s cmd st = Returned err (logged st1 r) /\
        In (slog.Duration "duration" (clock st1 - clock st))
           (slog.argsToAttrs (args r))) /\
  (forall scriptname dir data options (st : State) err st1,
      System.RunScript (DebugSystem.system s) scriptname dir data options st
      = Returned err st1 ->
      exists r,
        DebugSystem.RunScript s scriptname dir data options st
        = Returned err (logged st1 r) /\
        List.firstn 5 (slog.keys (slog.argsToAttrs (args r)))
        = ["scriptname"; "dir"; "data"; "interpreter"; "condition"] /\
        List.skipn 5 (slog.argsToAttrs (args r))
        = chezmoilog.AppendExitErrorAttrs [] err /\
        ~ In "duration" (slog.keys (slog.argsToAttrs (args r)))).
Proof.
  split.
  - intros cmd st err st1 Hinner.
    unfold DebugSystem.RunCmd, bind, time_Now, time_Since. rewrite Hinner.
    rewrite slog_Error_or_Info. eexists. split; [reflexivity |].
    cbn [args List.app map slog.arg slog.argsToAttrs slog.Key slog.Val
         slog.Any slog.Duration].
    right; left; reflexivity.
  - intros scriptname dir data options st err st1 Hinner.
    unfold DebugSystem.RunScript, bind. rewrite Hinner.
    rewrite slog_Error_or_Info. eexists. split; [reflexivity |].
    cbn [args List.app map slog.arg slog.argsToAttrs slog.Key slog.Val
         slog.keys slog.Any slog.String chezmoilog.Stringer
         List.firstn List.skipn].
    split; [reflexivity |]. split; [apply argsToAttrs_arg |].
    rewrite argsToAttrs_arg. intros Hin.
    repeat (destruct Hin as [Hin|Hin]; [discriminate |]).
    apply AppendExitErrorAttrs_keys in Hin. cbn in Hin.
    intuition discriminate.
Qed.

(** C9. A ReadFile call hands its logger exactly one record.  When the
    wrapped call returns an error the record is at error level and its
    only attribute is err, the error: it has no data and no size
    attribute.  When the wrapped call succeeds the record is at info level
    and carries the data sample, which is the data when that has at most
    64 bytes and otherwise its first 64 bytes followed by three dots, 67
    bytes in all, and the size, the length of the whole data. *)
Theorem C9_ReadFile_record (s : DebugSystem.t) (l : Logger) (name : AbsPath)
    (st : State) (data : bytes) (err : error) (st1 : State) :
  DebugSystem.logger s = Some l ->
  System.ReadFile (DebugSystem.system s) name st = Returned (data, err) st1 ->
  exists r,
    DebugSystem.ReadFile s name st = Returned (data, err) (logged st1 r) /\
    sink r = ViaLogger l /\ message r = "ReadFile" /\
    match err with
    | Some e =>
        level r = slog.LevelError /\
        slog.argsToAttrs (args r) = [slog.Any "err" (slog.any_error e)] /\
        slog.lookup "data" (slog.argsToAttrs (args r)) = None /\
        slog.lookup "size" (slog.argsToAttrs (args r)) = None
    | None =>
        let sample :=
          if (List.length data <=? 64)%nat then data
          else List.firstn 64 data ++ [x2e; x2e; x2e] in
        level r = slog.LevelInfo /\
        slog.argsToAttrs (args r)
        = [slog.String "data" (string_of_list_byte sample);
           slog.Int "size" (Z.of_nat (List.length data))] /\
        (List.length sample <= 67)%nat /\
        ((64 < List.length data)%nat -> List.length sample = 67%nat)
    end.
Proof.
  intros Hlogger Hinner.
  unfold DebugSystem.ReadFile, bind. rewrite Hinner, Hlogger.
  destruct err as [e|].
  - eexists; (split; [reflexivity |]); cbn; repeat split; reflexivity.
  - eexists. split; [reflexivity |]. cbn [sink message level args].
    split; [reflexivity |]. split; [reflexivity |].
    cbv zeta. split; [reflexivity |].
    cbn [slog.argsToAttrs slog.arg slog.Key slog.Val slog.String slog.Int].
    unfold chezmoilog.Output, chezmoilog.FirstFewBytes, chezmoilog.few,
      string_of_bytes, len.
    destruct (Nat.ltb_spec 64 (List.length data)) as [Hlong|Hshort];
      destruct (Nat.leb_spec (List.length data) 64) as [Hle|Hgt]; try lia.
    + split; [reflexivity |].
      rewrite List.length_app, List.firstn_length_le by lia. cbn. lia.
    + split; [reflexivity |]. lia.
Qed.

(** C10. InfoOrError on a nil logger returns without emitting a record,
    whatever the message, the error and the arguments; hence every
    operation of a DebugPersistentState made with a nil logger still
    forwards to the wrapped state and returns what it returned, in the
    state it ended in; the function ForEach passes on does what the
    caller's callback does. *)
Theorem C10_nil_logger :
  (forall msg err a (st : State),
      chezmoilog.InfoOrError None msg err a st = Returned tt st) /\
  (forall (ps : PersistentState.t) R (c : PersistentStateCall R)
          (st : State) (r : R) (st1 : State),
      let s := DebugPersistentState.NewDebugPersistentState ps None in
      PersistentState_call ps (forwarded s c) st = Returned r st1 ->
      DebugPersistentState_call s c st = Returned r st1) /\
  (forall (ps : PersistentState.t) bucket fn k v (st : State),
      let s := DebugPersistentState.NewDebugPersistentState ps None in
      DebugPersistentState.ForEach_func s bucket fn k v st = fn k v st).
Proof.
  split; [| split].
  - intros. apply InfoOrError_nil.
  - intros ps R c st r st1. apply DebugPersistentState_nil_logger.
  - intros ps bucket fn k v st s.
    unfold DebugPersistentState.ForEach_func, bind.
    destruct (fn k v st); reflexivity.
Qed.



End Properties.

(* ================================================================= *)
(** * The properties at work on the test doubles *)

(** A failing ReadFile through a DebugSystem, and a ForEach through a
    DebugPersistentState whose callback fails on B. *)
Lemma decorators_return_inner_result_on_test_doubles :
  (exists st',
      DebugSystem_call (testDebugSystem (Some someError))
        (CallReadFile "/tmp/x") testState
      = Returned (data100, Some someError) st' /\
      world st' = [] /\ clock st' = 5) /\
  (exists st',
      DebugPersistentState_call testDebugPersistentState
        (CallForEach [] (noteKey keyB someError)) testState
      = Returned (Some someError) st' /\
      world st' = [keyA; keyB] /\ clock st' = 0).
Proof.
  split.
  - refine (proj1 decorators_return_inner_result
              (testDebugSystem (Some someError)) _ (CallReadFile "/tmp/x")
              testState (data100, Some someError)
              (@Build_State testPlatform [] 5 []) _ _).
    + discriminate.
    + reflexivity.
  - destruct (proj2 decorators_return_inner_result
                testDebugPersistentState _
                (CallForEach [] (noteKey keyB someError))
                testState _ _ eq_refl) as (st' & Hcall & Hworld & Hclock).
    exists st'. split; [exact Hcall |]. split; assumption.
Defined.

(** A ReadFile that would succeed, through a DebugSystem without logger:
    the file is read, 5ns pass, and the call panics. *)
Lemma C1_ReadFile_Readlink_panic_on_nil_logger_witness :
  DebugSystem.ReadFile
    (DebugSystem.NewDebugSystem (mockSystem 5 data100 None) None)
    "/tmp/x" testState
  = Panicked (@Build_State testPlatform [] 5 []) /\
  forall st',
    DebugSystem.ReadFile
      (DebugSystem.NewDebugSystem (mockSystem 5 data100 None) None)
      "/tmp/x" testState
    <> Returned (data100, None) st'.
Proof.
  apply (proj1 (C1_ReadFile_Readlink_panic_on_nil_logger (H := testPlatform)
                  (mockSystem 5 data100 None) "/tmp/x" testState)
           data100 None (@Build_State testPlatform [] 5 [])).
  reflexivity.
Defined.

(** A hundred bytes are cut to 67 when there is no error and kept when
    there is one; a single byte is kept. *)
Lemma C2_Output_truncation_witness :
  chezmoilog.Output keyA None = keyA /\
  (chezmoilog.Output data100 None = List.firstn 64 data100 ++ [x2e; x2e; x2e] /\
   List.length (chezmoilog.Output data100 None) = 67%nat) /\
  chezmoilog.Output data100 (Some someError) = data100.
Proof.
  split; [| split].
  - apply (proj1 (C2_Output_truncation keyA None)); [reflexivity |].
    cbn. lia.
  - apply (proj1 (proj2 (C2_Output_truncation data100 None))); [reflexivity |].
    cbn. lia.
  - apply (proj2 (proj2 (C2_Output_truncation data100 (Some someError)))).
    discriminate.
Defined.

(** The store holds A, B and C; the callback notes the keys it sees and
    fails on B: it has seen A and B, and the logger has the records of A,
    of B and of the call. *)
Lemma C3_ForEach_stops_at_failing_callback_witness :
  DebugPersistentState.ForEach testDebugPersistentState [] (noteKey keyB someError)
    testState
  = Returned (Some someError)
      (@Build_State testPlatform [keyA; keyB] 0
         [ {| sink := ViaLogger testLogger; level := slog.LevelInfo;
              message := "ForEach";
              args := [slog.any_string "bucket"; slog.any_bytes [];
                       slog.any_string "key"; slog.any_bytes keyA;
                       slog.any_string "value"; slog.any_bytes val1] |};
           {| sink := ViaLogger testLogger; level := slog.LevelError;
              message := "ForEach";
              args := [slog.any_string "err"; slog.any_error someError;
                       slog.any_string "bucket"; slog.any_bytes [];
                       slog.any_string "key"; slog.any_bytes keyB;
                       slog.any_string "value"; slog.any_bytes val2] |};
           {| sink := ViaLogger testLogger; level := slog.LevelError;
              message := "ForEach";
              args := [slog.any_string "err"; slog.any_error someError;
                       slog.any_string "bucket"; slog.any_bytes []] |} ]).
Proof.
  apply (C3_ForEach_stops_at_failing_callback (H := testPlatform) testDebugPersistentState testLogger
           [] keyA val1 keyB val2 keyC val3 (noteKey keyB someError) someError
           testState (@Build_State testPlatform [keyA] 0 [])
           (@Build_State testPlatform [keyA; keyB] 0
              [ {| sink := ViaLogger testLogger; level := slog.LevelInfo;
                   message := "ForEach";
                   args := [slog.any_string "bucket"; slog.any_bytes [];
                            slog.any_string "key"; slog.any_bytes keyA;
                            slog.any_string "value"; slog.any_bytes val1] |} ])).
  - reflexivity.
  - intros f st0. reflexivity.
  - reflexivity.
  - reflexivity.
Defined.

(** A process that exited with code 2 after 1500ns of user time, and a
    process killed by a signal after 700ns of system time. *)
Lemma C4_exit_error_attrs_witness :
  chezmoilog.AppendExitErrorAttrs [] (exitErrorOf exited2)
  = [slog.Int "exitCode" 2; slog.Duration "userTime" 1500] /\
  chezmoilog.AppendExitErrorAttrs [] (exitErrorOf killed9)
  = [slog.Int "pid" 4243; slog.Duration "systemTime" 700] /\
  (exists added,
      chezmoilog.AppendExitErrorAttrs [] (exitErrorOf exited2) = added /\
      In (slog.Int "exitCode" 2) added /\ ~ In "pid" (slog.keys added) /\
      ~ In "systemTime" (slog.keys added)).
Proof.
  split; [reflexivity | split; [reflexivity |]].
  destruct (C4_exit_error_attrs [] (exitErrorOf exited2)
              {| exec.ProcessState := Some exited2; exec.Stderr := [] |}
              exited2 eq_refl eq_refl)
    as (added & Happ & Hexit & _ & _ & _ & Hsys & _).
  exists added. split; [exact Happ |].
  destruct (Hexit 2 eq_refl) as [Hin Hpid].
  split; [exact Hin |]. split; [exact Hpid |].
  intros Hk. apply Hsys in Hk. apply Hk. reflexivity.
Defined.

(** A successful Rename of /old to /new is recorded as RemoveAll. *)
Lemma C5_Rename_record_message_witness :
  exists r,
    DebugSystem.Rename (testDebugSystem None) "/old" "/new" testState
    = Returned None (logged (@Build_State testPlatform [] 5 []) r) /\
    message r = "RemoveAll" /\ message r <> "Rename".
Proof.
  apply (C5_Rename_record_message (H := testPlatform) (testDebugSystem None) testLogger "/old" "/new"
           testState None (@Build_State testPlatform [] 5 [])).
  - reflexivity.
  - reflexivity.
Defined.

(** A WriteFile of a hundred zero bytes fails, and the record still carries
    the sample of 67 bytes, not the hundred bytes of the data. *)
Lemma C6_WriteFile_failure_counterexample :
  exists r,
    DebugSystem.WriteFile (testDebugSystem (Some someError)) "/tmp/x" data100
      420%N testState
    = Returned (Some someError) (logged (@Build_State testPlatform [] 5 []) r) /\
    level r = slog.LevelError /\
    slog.lookup "data" (slog.argsToAttrs (args r))
    = Some (slog.StringValue
              (string_of_bytes (List.firstn 64 data100 ++ [x2e; x2e; x2e]))) /\
    slog.lookup "data" (slog.argsToAttrs (args r))
    <> Some (slog.StringValue
               (string_of_bytes
                  (chezmoilog.Output data100 (Some someError)))).
Proof.
  eexists. split; [reflexivity |].
  split; [reflexivity |]. split; [reflexivity |].
  vm_compute. discriminate.
Defined.

Lemma C6_WriteFile_sample_always_truncated_witness :
  exists r,
    DebugSystem.WriteFile (testDebugSystem (Some someError)) "/tmp/x" data100
      420%N testState
    = Returned (Some someError) (logged (@Build_State testPlatform [] 5 []) r) /\
    slog.lookup "data" (slog.argsToAttrs (args r))
    = Some (slog.StringValue
              (string_of_bytes (chezmoilog.FirstFewBytes data100))).
Proof.
  apply (C6_WriteFile_sample_always_truncated (H := testPlatform) (testDebugSystem (Some someError))
           testLogger "/tmp/x" data100 420%N testState (Some someError)
           (@Build_State testPlatform [] 5 [])).
  - reflexivity.
  - reflexivity.
Defined.

(** A RunScript that took 5ns: the record has no duration attribute. *)
Lemma C7_RunScript_no_duration_counterexample :
  exists r,
    DebugSystem.RunScript (testDebugSystem None) "deploy.sh" "/home" data100
      noOptions testState
    = Returned None (logged (@Build_State testPlatform [] 5 []) r) /\
    slog.keys (slog.argsToAttrs (args r))
    = ["scriptname"; "dir"; "data"; "interpreter"; "condition"; "err"] /\
    ~ In "duration" (slog.keys (slog.argsToAttrs (args r))).
Proof.
  eexists. split; [cbv; reflexivity |]. split; [reflexivity |].
  cbn. intuition discriminate.
Defined.

(** A RunCmd that took 5ns is recorded with a duration of 5ns. *)
Lemma C7_duration_logged_by_RunCmd_only_witness :
  exists r,
    DebugSystem.RunCmd (testDebugSystem None) (@exec.Command testPlatform "ls" ["-l"])
      testState
    = Returned None (logged (@Build_State testPlatform [] 5 []) r) /\
    In (slog.Duration "duration" 5) (slog.argsToAttrs (args r)).
Proof.
  apply (proj1 (C7_duration_logged_by_RunCmd_only (H := testPlatform) (testDebugSystem None))
           (@exec.Command testPlatform "ls" ["-l"]) testState None
           (@Build_State testPlatform [] 5 [])).
  reflexivity.
Defined.

(** No interpreter at all, and an interpreter without a command name. *)
Lemma C8_interpreter_resolution_witness :
  exec.Args (@Interpreter.ExecCommand testPlatform None "deploy.sh")
  = ["deploy.sh"] /\
  exec.Args
    (@Interpreter.ExecCommand testPlatform
       (Some {| Interpreter.Command := ""; Interpreter.Args := ["-x"] |})
       "deploy.sh")
  = ["deploy.sh"].
Proof.
  split.
  - apply (proj1 (@C8_interpreter_resolution testPlatform) None). reflexivity.
  - apply (proj1 (@C8_interpreter_resolution testPlatform)
             (Some {| Interpreter.Command := ""; Interpreter.Args := ["-x"] |})).
    reflexivity.
Defined.

(** A ReadFile that fails: one record, at error level, with err alone.  A
    ReadFile of a hundred zero bytes that succeeds: one record, at info
    level, with a sample of 64 zero bytes and three dots, and size 100. *)
Lemma C9_ReadFile_record_witness :
  (exists r,
      DebugSystem.ReadFile (testDebugSystem (Some someError)) "/tmp/x"
        testState
      = Returned (data100, Some someError)
          (logged (@Build_State testPlatform [] 5 []) r) /\
      sink r = ViaLogger testLogger /\ message r = "ReadFile" /\
      level r = slog.LevelError /\
      slog.argsToAttrs (args r) = [slog.Any "err" (slog.any_error someError)] /\
      slog.lookup "data" (slog.argsToAttrs (args r)) = None /\
      slog.lookup "size" (slog.argsToAttrs (args r)) = None) /\
  (exists r,
      DebugSystem.ReadFile (testDebugSystem None) "/tmp/x" testState
      = Returned (data100, None)
          (logged (@Build_State testPlatform [] 5 []) r) /\
      sink r = ViaLogger testLogger /\ message r = "ReadFile" /\
      level r = slog.LevelInfo /\
      slog.argsToAttrs (args r)
      = [slog.String "data"
           (string_of_list_byte (List.repeat x00 64 ++ [x2e; x2e; x2e]));
         slog.Int "size" 100] /\
      (List.length (List.repeat x00 64 ++ [x2e; x2e; x2e]) <= 67)%nat /\
      ((64 < List.length data100)%nat ->
       List.length (List.repeat x00 64 ++ [x2e; x2e; x2e]) = 67%nat)).
Proof.
  split.
  - apply (C9_ReadFile_record (H := testPlatform)
             (testDebugSystem (Some someError)) testLogger "/tmp/x"
             testState data100 (Some someError)
             (@Build_State testPlatform [] 5 [])).
    + reflexivity.
    + reflexivity.
  - apply (C9_ReadFile_record (H := testPlatform) (testDebugSystem None)
             testLogger "/tmp/x" testState data100 None
             (@Build_State testPlatform [] 5 [])).
    + reflexivity.
    + reflexivity.
Defined.

(** A Get through a DebugPersistentState made with a nil logger. *)
Lemma C10_nil_logger_witness :
  DebugPersistentState_call
    (DebugPersistentState.NewDebugPersistentState
       (mockPersistentState [] (Some someError)) None)
    (CallGet keyA keyB) testState
  = Returned ([], Some someError) testState.
Proof.
  apply (proj1 (proj2 (@C10_nil_logger testPlatform))
           (mockPersistentState [] (Some someError)) _ (CallGet keyA keyB)
           testState ([], Some someError) testState).
  reflexivity.
Defined.


(* ================================================================= *)
(** * Further properties of the code *)

Section MoreProperties.
Context `{Platform}.

(** ** Truncation *)

Lemma FirstFewBytes_long (d : bytes) :
  (64 < List.length d)%nat ->
  chezmoilog.FirstFewBytes d = List.firstn 64 d ++ [x2e; x2e; x2e].
Proof.
  intros Hlen. unfold chezmoilog.FirstFewBytes, chezmoilog.few.
  destruct (Nat.ltb_spec 64 (List.length d)); [reflexivity | lia].
Qed.

Lemma FirstFewBytes_short (d : bytes) :
  (List.length d <= 64)%nat -> chezmoilog.FirstFewBytes d = d.
Proof.
  intros Hlen. unfold chezmoilog.FirstFewBytes, chezmoilog.few.
  destruct (Nat.ltb_spec 64 (List.length d)); [lia | reflexivity].
Qed.

Lemma firstn_sample (d marker : bytes) :
  (64 <= List.length d)%nat ->
  List.firstn 64 (List.firstn 64 d ++ marker) = List.firstn 64 d.
Proof.
  intros Hlen.
  rewrite List.firstn_app, List.firstn_length_le by lia.
  rewrite Nat.sub_diag, List.firstn_O, List.app_nil_r.
  rewrite List.firstn_firstn, Nat.min_id. reflexivity.
Qed.

(** X1. The sample FirstFewBytes returns has the length of the data when
    that is at most 64 and 67 bytes otherwise, so never more than 67; its
    first 64 bytes are those of the data; and it is longer than the data
    itself exactly for data of 65 or 66 bytes. *)
Theorem X1_FirstFewBytes_length (d : bytes) :
  List.length (chezmoilog.FirstFewBytes d)
  = (if (List.length d <=? 64)%nat then List.length d else 67%nat) /\
  (List.length (chezmoilog.FirstFewBytes d) <= 67)%nat /\
  List.firstn 64 (chezmoilog.FirstFewBytes d) = List.firstn 64 d /\
  ((List.length d < List.length (chezmoilog.FirstFewBytes d))%nat <->
   (65 <= List.length d <= 66)%nat).
Proof.
  destruct (Nat.leb_spec (List.length d) 64) as [Hle|Hgt].
  - rewrite (FirstFewBytes_short d Hle). repeat split; try lia.
  - rewrite (FirstFewBytes_long d Hgt).
    assert (Hlen : List.length (List.firstn 64 d ++ [x2e; x2e; x2e]) = 67%nat).
    { rewrite List.length_app, List.firstn_length_le by lia. reflexivity. }
    rewrite Hlen. repeat split; try lia.
    apply firstn_sample. lia.
Qed.

(** X2. FirstFewBytes is idempotent: a sample is its own sample. *)
Theorem X2_FirstFewBytes_idempotent (d : bytes) :
  chezmoilog.FirstFewBytes (chezmoilog.FirstFewBytes d)
  = chezmoilog.FirstFewBytes d.
Proof.
  destruct (Nat.leb_spec (List.length d) 64) as [Hle|Hgt].
  - rewrite (FirstFewBytes_short d Hle). now apply FirstFewBytes_short.
  - rewrite (FirstFewBytes_long d Hgt).
    assert (Hlen : List.length (List.firstn 64 d ++ [x2e; x2e; x2e]) = 67%nat).
    { rewrite List.length_app, List.firstn_length_le by lia. reflexivity. }
    rewrite FirstFewBytes_long by lia.
    rewrite firstn_sample by lia. reflexivity.
Qed.

(** ** Decoding of process-exit errors *)

(** X3. AppendExitErrorAttrs keeps the attributes it is given, in order,
    and appends to them what it appends to none: at most three attributes.
    It appends nothing exactly when the error is, or wraps, a process-exit
    error without a process state; for any other error, a nil error
    included, it appends the single attribute err. *)
Theorem X3_AppendExitErrorAttrs_appends (attrs : list slog.Attr) (err : error) :
  chezmoilog.AppendExitErrorAttrs attrs err
  = attrs ++ chezmoilog.AppendExitErrorAttrs [] err /\
  (List.length (chezmoilog.AppendExitErrorAttrs [] err) <= 3)%nat /\
  (chezmoilog.AppendExitErrorAttrs [] err = [] <->
   exists e, errors.As_ExitError err = Some e /\ exec.ProcessState e = None) /\
  (errors.As_ExitError err = None ->
   chezmoilog.AppendExitErrorAttrs [] err
   = [slog.Any "err" (any_of_error err)]).
Proof.
  unfold chezmoilog.AppendExitErrorAttrs.
  destruct (errors.As_ExitError err) as [e|].
  - destruct (exec.ProcessState e) as [p|] eqn:Ep.
    + destruct (os.Exited p), (os.UserTime p =? 0), (os.SystemTime p =? 0);
        cbn [List.app List.length]; rewrite <- ?List.app_assoc;
        (split; [reflexivity |]); (split; [lia |]);
        (split; [| discriminate]);
        (split; [discriminate |]);
        intros (e' & He' & Hp); injection He' as <-; congruence.
    + rewrite List.app_nil_r. split; [reflexivity |]. split; [cbn; lia |].
      split; [| discriminate]. split; [| reflexivity].
      intros _. exists e. split; [reflexivity | exact Ep].
  - split; [reflexivity |]. split; [cbn; lia |].
    split; [| reflexivity]. split; [discriminate |].
    intros (e & He & _). discriminate.
Qed.

(** X4. Wrapping does not change the decoding: an error that wraps a
    process-exit error is decoded as that process-exit error itself is. *)
Theorem X4_AppendExitErrorAttrs_unwraps (attrs : list slog.Attr) (err : error)
    (e : exec.ExitError) :
  errors.As_ExitError err = Some e ->
  chezmoilog.AppendExitErrorAttrs attrs err
  = chezmoilog.AppendExitErrorAttrs attrs (Some (ExecExitError e)).
Proof.
  intros HAs. unfold chezmoilog.AppendExitErrorAttrs.
  rewrite HAs. reflexivity.
Qed.

(** X5. The attributes AppendExitErrorAttrs appends have distinct keys, in
    the order err, exitCode or pid, userTime, systemTime; exitCode and pid
    never come together, and err comes with none of the others. *)
Theorem X5_AppendExitErrorAttrs_keys_exclusive (err : error) :
  let keys := slog.keys (chezmoilog.AppendExitErrorAttrs [] err) in
  NoDup keys /\
  ~ (In "exitCode" keys /\ In "pid" keys) /\
  (In "err" keys -> keys = ["err"]).
Proof.
  unfold chezmoilog.AppendExitErrorAttrs.
  destruct (errors.As_ExitError err) as [e|].
  - destruct (exec.ProcessState e) as [p|].
    + destruct (os.Exited p), (os.UserTime p =? 0), (os.SystemTime p =? 0);
        cbn; (split; [| split]);
        try (repeat constructor; cbn; intuition discriminate);
        intuition discriminate.
    + cbn. split; [constructor | split]; tauto.
  - cbn. split; [repeat constructor; cbn; tauto | split]; intuition discriminate.
Qed.

(** X6. The log value of a process state and the decoding of a
    process-exit error with that state give the same attributes, except
    for a process that exited with status 0: the log value leaves its
    exit code out, the decoding reports exitCode 0.  A nil process state
    has an empty log value. *)
Theorem X6_process_state_log_value (p : os.ProcessState) (stderr : bytes) :
  let decoded :=
    chezmoilog.AppendExitErrorAttrs []
      (Some (ExecExitError
               {| exec.ProcessState := Some p; exec.Stderr := stderr |})) in
  (os_Success p = false ->
   group_attrs (OSProcessStateLogObject.LogValue (Some p)) = decoded) /\
  (os_Success p = true ->
   decoded
   = slog.Int "exitCode" 0
       :: group_attrs (OSProcessStateLogObject.LogValue (Some p))) /\
  group_attrs (OSProcessStateLogObject.LogValue None) = [].
Proof.
  unfold chezmoilog.AppendExitErrorAttrs, OSProcessStateLogObject.LogValue,
    os_Success, os.Exited, os.ExitCode.
  cbn [errors.As_ExitError errors.find_ExitError exec.ProcessState].
  destruct (os.status p) as [c|sg].
  - destruct (Z.eqb_spec c 0) as [->|Hc];
      destruct (os.UserTime p =? 0), (os.SystemTime p =? 0); cbn;
      repeat split; intros; try discriminate; reflexivity.
  - destruct (os.UserTime p =? 0), (os.SystemTime p =? 0); cbn;
      repeat split; intros; try discriminate; reflexivity.
Qed.

(** ** The interpreter *)

(** X7. For every interpreter and script name: when there is no
    interpreter the command is the script itself, with the script name as
    its only argument; otherwise it is the interpreter's command followed
    by its arguments and the script name.  Either way the script name is
    the last argument, and the interpreter's own argument list is a
    prefix of what follows the command. *)
Theorem X7_ExecCommand_args (i : option Interpreter.t) (name : string) :
  exec.Args (Interpreter.ExecCommand i name)
  = (if Interpreter.None i then [name]
     else match i with
          | Some i' => Interpreter.Command i' :: Interpreter.Args i' ++ [name]
          | None => [name]
          end) /\
  List.last (exec.Args (Interpreter.ExecCommand i name)) "" = name /\
  (Interpreter.None i = false <->
   exists i', i = Some i' /\ Interpreter.Command i' <> "").
Proof.
  destruct i as [i'|]; cbn [Interpreter.ExecCommand Interpreter.None].
  - destruct (String.eqb_spec (Interpreter.Command i') "") as [E|E].
    + cbn. repeat split; try discriminate.
      intros (j & Hj & Hne). injection Hj as <-. contradiction.
    + cbn [exec.Command exec.Args]. repeat split.
      * rewrite List.app_comm_cons. apply List.last_last.
      * intros _. exists i'. split; [reflexivity | exact E].
  - cbn. repeat split; try discriminate.
    intros (j & Hj & _). discriminate.
Qed.

(** X8. The log value of the command ExecCommand returns has an args
    attribute that holds the arguments, the script name last, preceded by
    a path attribute when the program's path is not empty; it never has a
    dir or an env attribute. *)
Theorem X8_ExecCommand_log_value (i : option Interpreter.t) (name : string) :
  let cmd := Interpreter.ExecCommand i name in
  let attrs := group_attrs (OSExecCmdLogObject.LogValuer cmd) in
  slog.lookup "args" attrs
  = Some (slog.AnyValue (slog.any_strings (exec.Args cmd))) /\
  (slog.lookup "path" attrs
   = if String.eqb (exec.Path cmd) "" then None
     else Some (slog.StringValue (exec.Path cmd))) /\
  slog.lookup "dir" attrs = None /\
  slog.lookup "env" attrs = None /\
  (List.length attrs <= 2)%nat.
Proof.
  assert (Hcmd : exists prog arg,
             Interpreter.ExecCommand i name = exec.Command prog arg).
  { unfold Interpreter.ExecCommand. destruct i as [i'|]; [| eauto].
    destruct (Interpreter.None (Some i')); eauto. }
  destruct Hcmd as (prog & arg & ->).
  unfold OSExecCmdLogObject.LogValuer, exec.Command.
  cbn [exec.Path exec.Args exec.Dir exec.Env].
  destruct (String.eqb (exec_LookPath prog) ""); cbn; repeat split; lia.
Qed.

(** ** The wrappers around running a command *)

Lemma default_log (err : error) (msg : string) (a : list slog.any)
    (st : State) :
  match err with
  | Some _ => slog_Error msg a
  | None => slog_Info msg a
  end st
  = Returned tt
      (logged st
         {| sink := ViaDefault; level := level_of err; message := msg;
            args := a |}).
Proof. destruct err; reflexivity. Qed.

(** The record each wrapper hands to the default logger. *)
Lemma LogCmdRun_record (os_exec : CmdRunner) cmd (st : State) err st1 :
  cmd_Run os_exec cmd st = Returned err st1 ->
  chezmoilog_wrappers.LogCmdRun os_exec cmd st
  = Returned err
      (logged st1
         {| sink := ViaDefault; level := level_of err; message := "Run";
            args :=
              map slog.arg
                ([slog.Any "cmd" (slog.any_OSExecCmdLogObject cmd);
                  slog.Duration "duration" (clock st1 - clock st)]
                 ++ chezmoilog.AppendExitErrorAttrs [] err) |}).
Proof.
  intros Hrun.
  unfold chezmoilog_wrappers.LogCmdRun, bind, time_Now, time_Since.
  rewrite Hrun, default_log. reflexivity.
Qed.

Lemma LogCmdStart_record (os_exec : CmdRunner) cmd (st : State) err st1 :
  cmd_Start os_exec cmd st = Returned err st1 ->
  chezmoilog_wrappers.LogCmdStart os_exec cmd st
  = Returned err
      (logged st1
         {| sink := ViaDefault; level := level_of err; message := "Start";
            args :=
              map slog.arg
                ([slog.Any "cmd" (slog.any_OSExecCmdLogObject cmd);
                  slog.Time "start" (clock st)]
                 ++ chezmoilog.AppendExitErrorAttrs [] err) |}).
Proof.
  intros Hrun.
  unfold chezmoilog_wrappers.LogCmdStart, bind, time_Now.
  rewrite Hrun, default_log. reflexivity.
Qed.

Lemma LogCmdWait_record (os_exec : CmdRunner) cmd (st : State) err st1 :
  cmd_Wait os_exec cmd st = Returned err st1 ->
  chezmoilog_wrappers.LogCmdWait os_exec cmd st
  = Returned err
      (logged st1
         {| sink := ViaDefault; level := level_of err; message := "Wait";
            args :=
              map slog.arg
                ([slog.Any "cmd" (slog.any_OSExecCmdLogObject cmd);
                  slog.Time "end" (clock st1)]
                 ++ chezmoilog.AppendExitErrorAttrs [] err) |}).
Proof.
  intros Hrun.
  unfold chezmoilog_wrappers.LogCmdWait, bind, time_Now.
  rewrite Hrun, default_log. reflexivity.
Qed.

Lemma LogCmdOutput_record (os_exec : CmdRunner) cmd (st : State) output err
    st1 :
  cmd_Output os_exec cmd st = Returned (output, err) st1 ->
  chezmoilog_wrappers.LogCmdOutput os_exec cmd st
  = Returned (output, err)
      (logged st1
         {| sink := ViaDefault; level := level_of err; message := "Output";
            args :=
              map slog.arg
                ([slog.Any "cmd" (slog.any_OSExecCmdLogObject cmd);
                  slog.Duration "duration" (clock st1 - clock st);
                  slog.Any "output"
                    (slog.any_bytes (chezmoilog.Output output err));
                  slog.Int "size" (len output)]
                 ++ chezmoilog.AppendExitErrorAttrs [] err) |}).
Proof.
  intros Hrun.
  unfold chezmoilog_wrappers.LogCmdOutput, bind, time_Now, time_Since.
  rewrite Hrun, default_log. reflexivity.
Qed.

Lemma LogCmdCombinedOutput_record (os_exec : CmdRunner) cmd (st : State)
    output err st1 :
  cmd_CombinedOutput os_exec cmd st = Returned (output, err) st1 ->
  chezmoilog_wrappers.LogCmdCombinedOutput os_exec cmd st
  = Returned (output, err)
      (logged st1
         {| sink := ViaDefault; level := level_of err; message := "Output";
            args :=
              map slog.arg
                ([slog.Any "cmd" (slog.any_OSExecCmdLogObject cmd);
                  slog.Duration "duration" (clock st1 - clock st);
                  slog.Any "combinedOutput"
                    (slog.any_bytes (chezmoilog.Output output err));
                  slog.Int "size" (len output)]
                 ++ chezmoilog.AppendExitErrorAttrs [] err) |}).
Proof.
  intros Hrun.
  unfold chezmoilog_wrappers.LogCmdCombinedOutput, bind, time_Now, time_Since.
  rewrite Hrun, default_log. reflexivity.
Qed.

Lemma attrs_of_args (attrs : list slog.Attr) :
  slog.argsToAttrs (map slog.arg attrs) = attrs.
Proof.
  induction attrs as [|[k v] attrs IH]; cbn; [reflexivity |].
  now rewrite IH.
Qed.

(** X9. Each of LogCmdRun, LogCmdStart, LogCmdWait, LogCmdOutput and
    LogCmdCombinedOutput returns exactly what the method of the command it
    calls returned, and hands the default logger exactly one record, at
    error level when the error is not nil and at info level otherwise.
    The record is named after the method, except that LogCmdCombinedOutput
    names it Output as LogCmdOutput does. *)
Theorem X9_LogCmd_returns_and_records_once (os_exec : CmdRunner)
    (cmd : exec.Cmd) (st : State) :
  let one_record (res : Result error) err st1 msg :=
    exists r,
      res = Returned err (logged st1 r) /\
      sink r = ViaDefault /\ level r = level_of err /\ message r = msg in
  let one_record' (res : Result (bytes * error)) output err st1 msg :=
    exists r,
      res = Returned (output, err) (logged st1 r) /\
      sink r = ViaDefault /\ level r = level_of err /\ message r = msg in
  (forall err st1,
      cmd_Run os_exec cmd st = Returned err st1 ->
      one_record (chezmoilog_wrappers.LogCmdRun os_exec cmd st) err st1 "Run") /\
  (forall err st1,
      cmd_Start os_exec cmd st = Returned err st1 ->
      one_record (chezmoilog_wrappers.LogCmdStart os_exec cmd st) err st1
        "Start") /\
  (forall err st1,
      cmd_Wait os_exec cmd st = Returned err st1 ->
      one_record (chezmoilog_wrappers.LogCmdWait os_exec cmd st) err st1
        "Wait") /\
  (forall output err st1,
      cmd_Output os_exec cmd st = Returned (output, err) st1 ->
      one_record' (chezmoilog_wrappers.LogCmdOutput os_exec cmd st)
        output err st1 "Output") /\
  (forall output err st1,
      cmd_CombinedOutput os_exec cmd st = Returned (output, err) st1 ->
      one_record' (chezmoilog_wrappers.LogCmdCombinedOutput os_exec cmd st)
        output err st1 "Output").
Proof.
  cbv zeta. split; [| split; [| split; [| split]]].
  - intros err st1 Hcall.
    rewrite (LogCmdRun_record _ _ _ _ _ Hcall). eexists. repeat split.
  - intros err st1 Hcall.
    rewrite (LogCmdStart_record _ _ _ _ _ Hcall). eexists. repeat split.
  - intros err st1 Hcall.
    rewrite (LogCmdWait_record _ _ _ _ _ Hcall). eexists. repeat split.
  - intros output err st1 Hcall.
    rewrite (LogCmdOutput_record _ _ _ _ _ _ Hcall). eexists. repeat split.
  - intros output err st1 Hcall.
    rewrite (LogCmdCombinedOutput_record _ _ _ _ _ _ Hcall). eexists.
    repeat split.
Qed.

(** X10. LogCmdOutput and LogCmdCombinedOutput return the output in full
    whatever they log.  The record carries, under output (combinedOutput
    for the latter), the whole output when the command failed and its
    FirstFewBytes sample when it succeeded, and under size the length of
    the whole output in both cases. *)
Theorem X10_LogCmdOutput_sample_and_size (os_exec : CmdRunner)
    (cmd : exec.Cmd) (st : State) :
  (forall output err st1,
      cmd_Output os_exec cmd st = Returned (output, err) st1 ->
      exists r,
        chezmoilog_wrappers.LogCmdOutput os_exec cmd st
        = Returned (output, err) (logged st1 r) /\
        slog.lookup "output" (slog.argsToAttrs (args r))
        = Some (slog.AnyValue
                  (slog.any_bytes
                     match err with
                     | Some _ => output
                     | None => chezmoilog.FirstFewBytes output
                     end)) /\
        slog.lookup "size" (slog.argsToAttrs (args r))
        = Some (slog.IntValue (len output))) /\
  (forall output err st1,
      cmd_CombinedOutput os_exec cmd st = Returned (output, err) st1 ->
      exists r,
        chezmoilog_wrappers.LogCmdCombinedOutput os_exec cmd st
        = Returned (output, err) (logged st1 r) /\
        slog.lookup "combinedOutput" (slog.argsToAttrs (args r))
        = Some (slog.AnyValue
                  (slog.any_bytes
                     match err with
                     | Some _ => output
                     | None => chezmoilog.FirstFewBytes output
                     end)) /\
        slog.lookup "size" (slog.argsToAttrs (args r))
        = Some (slog.IntValue (len output))).
Proof.
  split; intros output err st1 Hcall.
  - rewrite (LogCmdOutput_record _ _ _ _ _ _ Hcall). eexists.
    split; [reflexivity |]. cbn [args]. rewrite attrs_of_args.
    destruct err; split; reflexivity.
  - rewrite (LogCmdCombinedOutput_record _ _ _ _ _ _ Hcall). eexists.
    split; [reflexivity |]. cbn [args]. rewrite attrs_of_args.
    destruct err; split; reflexivity.
Qed.

(** X11. The times the wrappers log are read around the call: LogCmdRun
    logs as duration the time between its reading of the clock before
    cmd.Run and the clock when Run has returned, LogCmdStart logs as start
    the time before cmd.Start is called, and LogCmdWait logs as end the
    time when cmd.Wait has returned. *)
Theorem X11_LogCmd_times (os_exec : CmdRunner) (cmd : exec.Cmd) (st : State) :
  (forall err st1,
      cmd_Run os_exec cmd st = Returned err st1 ->
      exists r,
        chezmoilog_wrappers.LogCmdRun os_exec cmd st
        = Returned err (logged st1 r) /\
        slog.lookup "duration" (slog.argsToAttrs (args r))
        = Some (slog.DurationValue (clock st1 - clock st))) /\
  (forall err st1,
      cmd_Start os_exec cmd st = Returned err st1 ->
      exists r,
        chezmoilog_wrappers.LogCmdStart os_exec cmd st
        = Returned err (logged st1 r) /\
        slog.lookup "start" (slog.argsToAttrs (args r))
        = Some (slog.TimeValue (clock st))) /\
  (forall err st1,
      cmd_Wait os_exec cmd st = Returned err st1 ->
      exists r,
        chezmoilog_wrappers.LogCmdWait os_exec cmd st
        = Returned err (logged st1 r) /\
        slog.lookup "end" (slog.argsToAttrs (args r))
        = Some (slog.TimeValue (clock st1))).
Proof.
  split; [| split]; intros err st1 Hcall.
  - rewrite (LogCmdRun_record _ _ _ _ _ Hcall). eexists.
    split; [reflexivity |]. cbn [args]. rewrite attrs_of_args. reflexivity.
  - rewrite (LogCmdStart_record _ _ _ _ _ Hcall). eexists.
    split; [reflexivity |]. cbn [args]. rewrite attrs_of_args. reflexivity.
  - rewrite (LogCmdWait_record _ _ _ _ _ Hcall). eexists.
    split; [reflexivity |]. cbn [args]. rewrite attrs_of_args. reflexivity.
Qed.

Lemma RunCmd_record (s : DebugSystem.t) cmd (st : State) err st1 :
  System.RunCmd (DebugSystem.system s) cmd st = Returned err st1 ->
  DebugSystem.RunCmd s cmd st
  = Returned err
      (logged st1
         {| sink := ViaDefault; level := level_of err; message := "RunCmd";
            args :=
              map slog.arg
                ([slog.Any "cmd" (slog.any_OSExecCmdLogObject cmd);
                  slog.Duration "duration" (clock st1 - clock st)]
                 ++ chezmoilog.AppendExitErrorAttrs [] err) |}).
Proof.
  intros Hrun.
  unfold DebugSystem.RunCmd, bind, time_Now, time_Since.
  rewrite Hrun, default_log. reflexivity.
Qed.

Lemma RunScript_record (s : DebugSystem.t) scriptname dir data options
    (st : State) err st1 :
  System.RunScript (DebugSystem.system s) scriptname dir data options st
  = Returned err st1 ->
  DebugSystem.RunScript s scriptname dir data options st
  = Returned err
      (logged st1
         {| sink := ViaDefault; level := level_of err; message := "RunScript";
            args :=
              map slog.arg
                ([chezmoilog.Stringer "scriptname" scriptname;
                  chezmoilog.Stringer "dir" dir;
                  slog.String "data"
                    (string_of_bytes (chezmoilog.Output data err));
                  slog.Any "interpreter"
                    (slog.any_Interpreter
                       (RunScriptOptions.Interpreter options));
                  slog.String "condition"
                    (RunScriptOptions.Condition options)]
                 ++ chezmoilog.AppendExitErrorAttrs [] err) |}).
Proof.
  intros Hrun.
  unfold DebugSystem.RunScript, bind.
  rewrite Hrun, default_log. reflexivity.
Qed.

(** X12. A command that succeeds is still logged with an err attribute:
    when the call returns a nil error, the info-level record of LogCmdRun,
    and likewise that of RunCmd and of RunScript of a DebugSystem, ends
    with the attribute err holding nil, the only exit-status attribute
    there is. *)
Theorem X12_success_logs_nil_err (os_exec : CmdRunner) (s : DebugSystem.t)
    (cmd : exec.Cmd) (st : State) :
  let ends_with_nil_err (a : list slog.any) :=
    exists front,
      slog.argsToAttrs a = front ++ [slog.Any "err" slog.any_nil] /\
      ~ In "err" (slog.keys front) in
  (forall st1,
      cmd_Run os_exec cmd st = Returned None st1 ->
      exists r,
        chezmoilog_wrappers.LogCmdRun os_exec cmd st
        = Returned None (logged st1 r) /\
        level r = slog.LevelInfo /\ ends_with_nil_err (args r)) /\
  (forall st1,
      System.RunCmd (DebugSystem.system s) cmd st = Returned None st1 ->
      exists r,
        DebugSystem.RunCmd s cmd st = Returned None (logged st1 r) /\
        level r = slog.LevelInfo /\ ends_with_nil_err (args r)) /\
  (forall scriptname dir data options st1,
      System.RunScript (DebugSystem.system s) scriptname dir data options st
      = Returned None st1 ->
      exists r,
        DebugSystem.RunScript s scriptname dir data options st
        = Returned None (logged st1 r) /\
        level r = slog.LevelInfo /\ ends_with_nil_err (args r)).
Proof.
  cbv zeta. split; [| split].
  - intros st1 Hcall. rewrite (LogCmdRun_record _ _ _ _ _ Hcall).
    eexists. split; [reflexivity |]. split; [reflexivity |].
    cbn [args]. rewrite attrs_of_args. eexists. split; [reflexivity |].
    cbn. intuition discriminate.
  - intros st1 Hcall. rewrite (RunCmd_record _ _ _ _ _ Hcall).
    eexists. split; [reflexivity |]. split; [reflexivity |].
    cbn [args]. rewrite attrs_of_args. eexists. split; [reflexivity |].
    cbn. intuition discriminate.
  - intros scriptname dir data options st1 Hcall.
    rewrite (RunScript_record _ _ _ _ _ _ _ _ Hcall).
    eexists. split; [reflexivity |]. split; [reflexivity |].
    cbn [args]. rewrite attrs_of_args. eexists. split; [reflexivity |].
    cbn. intuition discriminate.
Qed.

(** ** The wrapper around an HTTP round trip *)

(** X13. For a request with a URL and with a logger, LogHTTPRequest
    returns the response and the error of client.Do unchanged and hands
    the logger one record named HTTPRequest, at error level when the error
    is not nil: it carries the duration of the round trip, the method and
    the URL, then contentLength, status and statusCode whenever the
    response is not nil, even when there is an error too, then the error
    if any.  With a nil logger, and for a request whose URL is nil with
    any logger, it panics; the panic happens in the state client.Do left,
    that is, after the round trip has been made. *)
Theorem X13_LogHTTPRequest (client : http_Client) (req : http.Request)
    (st : State) (resp : option http.Response) (err : error) (st1 : State) :
  client_Do client req st = Returned (resp, err) st1 ->
  (forall (l : Logger) (url : string),
      http.URL req = Some url ->
      exists r,
        chezmoilog_wrappers.LogHTTPRequest (Some l) client req st
        = Returned (resp, err) (logged st1 r) /\
        sink r = ViaLogger l /\ level r = level_of err /\
        message r = "HTTPRequest" /\
        slog.argsToAttrs (args r)
        = [slog.Duration "duration" (clock st1 - clock st);
           slog.String "method" (http.Method req);
           slog.String "url" url]
          ++ match resp with
             | Some resp =>
                 [slog.Int "contentLength" (http.ContentLength resp);
                  slog.String "status" (http.Status resp);
                  slog.Int "statusCode" (http.StatusCode resp)]
             | None => []
             end
          ++ match err with
             | Some e => [slog.Any "err" (slog.any_error e)]
             | None => []
             end) /\
  (forall url : string,
      http.URL req = Some url ->
      chezmoilog_wrappers.LogHTTPRequest None client req st = Panicked st1) /\
  (forall logger : option Logger,
      http.URL req = None ->
      chezmoilog_wrappers.LogHTTPRequest logger client req st = Panicked st1).
Proof.
  intros Hdo.
  unfold chezmoilog_wrappers.LogHTTPRequest, bind, time_Now, time_Since.
  rewrite Hdo. split; [| split].
  - intros l url Hurl. rewrite Hurl.
    destruct resp as [resp|], err as [e|]; cbn;
      eexists; repeat split.
  - intros url Hurl. rewrite Hurl. destruct err; reflexivity.
  - intros logger Hurl. rewrite Hurl. reflexivity.
Qed.

(** ** One record for each call *)

Lemma InfoOrError_one_record (l : Logger) msg err a (st : State) :
  exists r,
    chezmoilog.InfoOrError (Some l) msg err a st = Returned tt (logged st r) /\
    sink r = ViaLogger l /\ level r = level_of err /\ message r = msg /\
    args r = with_err err a.
Proof. destruct err; cbn; eexists; repeat split. Qed.

Ltac forward_inner Hinner :=
  cbn [System_call PersistentState_call forwarded] in Hinner;
  unfold bind, ret; rewrite Hinner.

Ltac one_InfoOrError_record :=
  match goal with
  | |- context [chezmoilog.InfoOrError (Some ?l) ?m ?e ?a ?s] =>
      let r := fresh "r" in
      let E := fresh "E" in
      let Hs := fresh "Hs" in
      let Hl := fresh "Hl" in
      destruct (InfoOrError_one_record l m e a s) as (r & E & Hs & Hl & _);
      rewrite E; exists r; repeat split; assumption
  end.

Lemma DebugSystem_logs_once (s : DebugSystem.t) (l : Logger)
    R (c : SystemCall R) (st : State) (r : R) (st1 : State) :
  DebugSystem.logger s = Some l ->
  System_call (DebugSystem.system s) c st = Returned r st1 ->
  if passes_through c
  then DebugSystem_call s c st = Returned r st1
  else
    exists rec,
      DebugSystem_call s c st = Returned r (logged st1 rec) /\
      level rec = level_of (SystemCall_error c r) /\
      sink rec = if logs_to_default c then ViaDefault else ViaLogger l.
Proof.
  intros Hlogger Hinner.
  destruct c; cbn [DebugSystem_call passes_through logs_to_default
                   SystemCall_error];
    try (unfold DebugSystem.Chtimes, DebugSystem.Chmod, DebugSystem.Glob,
           DebugSystem.Link, DebugSystem.Lstat, DebugSystem.Mkdir,
           DebugSystem.ReadDir, DebugSystem.Remove, DebugSystem.RemoveAll,
           DebugSystem.Rename, DebugSystem.Stat, DebugSystem.WriteFile,
           DebugSystem.WriteSymlink;
         forward_inner Hinner; rewrite Hlogger; try destruct r;
         one_InfoOrError_record).
  - (* RawPath *) exact Hinner.
  - (* ReadFile *)
    unfold DebugSystem.ReadFile. forward_inner Hinner. rewrite Hlogger.
    destruct r as [data [e|]]; cbn; eexists; repeat split.
  - (* Readlink *)
    unfold DebugSystem.Readlink. forward_inner Hinner. rewrite Hlogger.
    destruct r as [linkname [e|]]; cbn; eexists; repeat split.
  - (* RunCmd *)
    cbn [System_call] in Hinner. rewrite (RunCmd_record _ _ _ _ _ Hinner).
    eexists; repeat split.
  - (* RunScript *)
    cbn [System_call] in Hinner.
    rewrite (RunScript_record _ _ _ _ _ _ _ _ Hinner).
    eexists; repeat split.
  - (* UnderlyingFS *) exact Hinner.
Qed.

(** X14. With a logger, every call on a DebugSystem other than RawPath and
    UnderlyingFS adds exactly one record to those the wrapped call left,
    at error level when the wrapped call returned an error and at info
    level when it did not; the record goes to the DebugSystem's logger,
    except for RunCmd and RunScript, whose record goes to the default
    logger.  RawPath and UnderlyingFS add no record at all. *)
Theorem X14_DebugSystem_one_record_per_call (s : DebugSystem.t) (l : Logger)
    R (c : SystemCall R) (st : State) (r : R) (st1 : State) :
  DebugSystem.logger s = Some l ->
  System_call (DebugSystem.system s) c st = Returned r st1 ->
  if passes_through c
  then DebugSystem_call s c st = Returned r st1
  else
    exists rec,
      DebugSystem_call s c st = Returned r (logged st1 rec) /\
      level rec = level_of (SystemCall_error c r) /\
      sink rec = if logs_to_default c then ViaDefault else ViaLogger l.
Proof. apply DebugSystem_logs_once. Qed.

(** X15. With a nil logger a DebugSystem still forwards every call.
    ReadFile and Readlink then panic, in the state the wrapped call left,
    that is, after the wrapped call has been made; RunCmd and RunScript
    return the wrapped result and still hand their record to the default
    logger; every other call returns the wrapped result and leaves no
    record. *)
Theorem X15_DebugSystem_nil_logger (sys : System.t) R (c : SystemCall R)
    (st : State) (r : R) (st1 : State) :
  let s := DebugSystem.NewDebugSystem sys None in
  System_call sys c st = Returned r st1 ->
  if calls_logger_method c then DebugSystem_call s c st = Panicked st1
  else if logs_to_default c then
    exists rec,
      DebugSystem_call s c st = Returned r (logged st1 rec) /\
      sink rec = ViaDefault
  else DebugSystem_call s c st = Returned r st1.
Proof.
  intros s Hinner.
  destruct c; cbn [DebugSystem_call calls_logger_method logs_to_default];
    try (unfold DebugSystem.Chtimes, DebugSystem.Chmod, DebugSystem.Glob,
           DebugSystem.Link, DebugSystem.Lstat, DebugSystem.Mkdir,
           DebugSystem.ReadDir, DebugSystem.Remove, DebugSystem.RemoveAll,
           DebugSystem.Rename, DebugSystem.Stat, DebugSystem.WriteFile,
           DebugSystem.WriteSymlink, DebugSystem.ReadFile,
           DebugSystem.Readlink, DebugSystem.RawPath,
           DebugSystem.UnderlyingFS;
         cbn [DebugSystem.system DebugSystem.logger s
              DebugSystem.NewDebugSystem];
         forward_inner Hinner; try destruct r as [? [?|]]; reflexivity).
  - (* RunCmd *)
    cbn [System_call] in Hinner.
    rewrite (RunCmd_record s _ _ _ _ Hinner). eexists; split; reflexivity.
  - (* RunScript *)
    cbn [System_call] in Hinner.
    rewrite (RunScript_record s _ _ _ _ _ _ _ Hinner).
    eexists; split; reflexivity.
Qed.

(** ** ForEach over any store *)

(** What the function literal of ForEach does with what fn does. *)
Lemma ForEach_func_returns (s : DebugPersistentState.t) (l : Logger)
    (bucket : bytes) (fn : bytes -> bytes -> M error) (k v : bytes)
    (st : State) (err : error) (st1 : State) :
  DebugPersistentState.logger s = Some l ->
  fn k v st = Returned err st1 ->
  DebugPersistentState.ForEach_func s bucket fn k v st
  = Returned err (logged st1 (entryRecord l bucket (k, v, err))).
Proof.
  intros Hlogger Hfn.
  unfold DebugPersistentState.ForEach_func, bind. rewrite Hfn, Hlogger.
  destruct err; reflexivity.
Qed.

Lemma ForEach_func_panics (s : DebugPersistentState.t) (bucket : bytes)
    (fn : bytes -> bytes -> M error) (k v : bytes) (st sp : State) :
  fn k v st = Panicked sp ->
  DebugPersistentState.ForEach_func s bucket fn k v st = Panicked sp.
Proof.
  intros Hfn. unfold DebugPersistentState.ForEach_func, bind.
  rewrite Hfn. reflexivity.
Qed.

(** Past the entries the callback succeeds on, the store goes on with the
    rest. *)
Lemma visit_past_successes (s : DebugPersistentState.t) (l : Logger)
    (bucket : bytes) (fn : bytes -> bytes -> M error) :
  DebugPersistentState.logger s = Some l ->
  forall (st : State) front stm,
    Visits fn l bucket st front stm ->
    Forall (fun x => snd x = None) front ->
    forall rest,
      visit (map entry_of front ++ rest)
        (DebugPersistentState.ForEach_func s bucket fn) st
      = visit rest (DebugPersistentState.ForEach_func s bucket fn) stm.
Proof.
  intros Hlogger st front stm Hvisits.
  induction Hvisits as [st|k v err st st1 seen st' Hfn Hrest IH];
    intros Hnone rest.
  - reflexivity.
  - inversion Hnone as [|x xs Herr Hnone']; subst. cbn in Herr. subst err.
    cbn [map entry_of fst snd List.app visit]. unfold bind at 1.
    rewrite (ForEach_func_returns s l bucket fn k v st None st1 Hlogger Hfn).
    apply IH. exact Hnone'.
Qed.

Lemma Visits_app (fn : bytes -> bytes -> M error) (l : Logger)
    (bucket : bytes) (front back : list (bytes * bytes * error)) :
  forall st st' : State,
    Visits fn l bucket st (front ++ back) st' ->
    exists stm,
      Visits fn l bucket st front stm /\ Visits fn l bucket stm back st'.
Proof.
  induction front as [|x front IH]; intros st st' Hvisits.
  - exists st. split; [constructor | exact Hvisits].
  - cbn in Hvisits.
    inversion Hvisits as [|k v err st0 st1 seen st0' Hfn Hrest]; subst.
    destruct (IH _ _ Hrest) as (stm & Hfront & Hback).
    exists stm. split; [| exact Hback].
    econstructor; [exact Hfn | exact Hfront].
Qed.

Lemma Visits_records (fn : bytes -> bytes -> M error) (l : Logger)
    (bucket : bytes) :
  (forall k v (s0 : State) err s1,
      fn k v s0 = Returned err s1 -> records s1 = records s0) ->
  forall (st : State) seen st',
    Visits fn l bucket st seen st' ->
    records st' = records st ++ map (entryRecord l bucket) seen.
Proof.
  intros Hquiet st seen st' Hvisits.
  induction Hvisits as [st|k v err st st1 seen st' Hfn Hrest IH].
  - cbn. now rewrite List.app_nil_r.
  - rewrite IH. cbn [logged records map].
    rewrite (Hquiet _ _ _ _ _ Hfn), <- List.app_assoc. reflexivity.
Qed.

(** X16. Let the wrapped store visit its entries in order and halt at the
    first error, and let fn be any callback: it may change the world, take
    time, log and panic.  If fn returns on the entries up to and including
    the first one it fails on (on all of them, returning nil, if it fails
    on none), then ForEach on the decorator calls fn on exactly these
    entries, in order, hands its logger the record of each entry right
    after the call on it, with what fn returned, and one record for the
    call at the end, and returns that first error, or nil; entries after
    the failing one are neither visited nor logged.  If fn panics on an
    entry before any failure, ForEach panics in the state of that panic.
    When fn leaves the records alone, the records added are exactly those
    of the visited entries, in order. *)
Theorem X16_ForEach_logs_each_visited_entry (s : DebugPersistentState.t)
    (l : Logger) (bucket : bytes) (entries : list (bytes * bytes))
    (fn : bytes -> bytes -> M error) (st : State) :
  DebugPersistentState.logger s = Some l ->
  (forall f st0,
      PersistentState.ForEach (DebugPersistentState.persistentState s) bucket
        f st0
      = visit entries f st0) ->
  (forall seen st' e,
      Visits fn l bucket st seen st' ->
      (exists rest,
          entries = map entry_of seen ++ rest /\ (e = None -> rest = [])) ->
      match e with
      | None => Forall (fun x => snd x = None) seen
      | Some _ =>
          exists front k v,
            seen = front ++ [(k, v, e)] /\
            Forall (fun x => snd x = None) front
      end ->
      DebugPersistentState.ForEach s bucket fn st
      = Returned e (logged st' (callRecord l bucket e))) /\
  (forall front stm k v rest sp,
      Visits fn l bucket st front stm ->
      Forall (fun x => snd x = None) front ->
      entries = map entry_of front ++ (k, v) :: rest ->
      fn k v stm = Panicked sp ->
      DebugPersistentState.ForEach s bucket fn st = Panicked sp) /\
  (forall seen st',
      Visits fn l bucket st seen st' ->
      (forall k v (s0 : State) err s1,
          fn k v s0 = Returned err s1 -> records s1 = records s0) ->
      records st' = records st ++ map (entryRecord l bucket) seen).
Proof.
  intros Hlogger Hstore. split; [| split].
  - intros seen st' e Hvisits (rest & Hentries & Hrest) Hshape.
    unfold DebugPersistentState.ForEach. unfold bind at 1.
    rewrite Hstore, Hentries.
    destruct e as [e|].
    + destruct Hshape as (front & k & v & -> & Hfront).
      destruct (Visits_app fn l bucket front [(k, v, Some e)] st st' Hvisits)
        as (stm & Hvfront & Hvlast).
      inversion Hvlast as [|k' v' err st0 st1 seen' st0' Hfn Hend]; subst.
      inversion Hend; subst.
      rewrite List.map_app, <- List.app_assoc.
      rewrite (visit_past_successes s l bucket fn Hlogger st front stm
                 Hvfront Hfront).
      cbn [map entry_of fst snd List.app visit]. unfold bind at 1.
      rewrite (ForEach_func_returns s l bucket fn k v stm (Some e) st1
                 Hlogger Hfn).
      cbn [ret]. rewrite Hlogger. reflexivity.
    + rewrite (Hrest eq_refl).
      rewrite (visit_past_successes s l bucket fn Hlogger st seen st'
                 Hvisits Hshape).
      cbn [visit ret]. rewrite Hlogger. reflexivity.
  - intros front stm k v rest sp Hvisits Hfront Hentries Hpanic.
    unfold DebugPersistentState.ForEach. unfold bind at 1.
    rewrite Hstore, Hentries.
    rewrite (visit_past_successes s l bucket fn Hlogger st front stm
               Hvisits Hfront).
    cbn [visit]. unfold bind at 1.
    rewrite (ForEach_func_panics s bucket fn k v stm sp Hpanic).
    reflexivity.
  - intros seen st' Hvisits Hquiet.
    now apply (Visits_records fn l bucket Hquiet).
Qed.

(** X17. With a logger, every call on a DebugPersistentState adds exactly
    one record to those the forwarded call left, for its logger, at error
    level when the wrapped call returned an error and at info level when
    it did not.  The arguments of the log call pair up into attributes:
    none is left with the key for a missing or malformed key, and there is
    an err attribute exactly when the wrapped call returned an error. *)
Theorem X17_DebugPersistentState_one_record_per_call
    (s : DebugPersistentState.t) (l : Logger) R (c : PersistentStateCall R)
    (st : State) (r : R) (st1 : State) :
  DebugPersistentState.logger s = Some l ->
  PersistentState_call (DebugPersistentState.persistentState s)
    (forwarded s c) st = Returned r st1 ->
  exists rec,
    DebugPersistentState_call s c st = Returned r (logged st1 rec) /\
    sink rec = ViaLogger l /\
    level rec = level_of (PersistentStateCall_error c r) /\
    ~ In slog.badKey (slog.keys (slog.argsToAttrs (args rec))) /\
    (In "err" (slog.keys (slog.argsToAttrs (args rec))) <->
     PersistentStateCall_error c r <> None).
Proof.
  intros Hlogger Hinner.
  destruct c; cbn [DebugPersistentState_call PersistentStateCall_error];
    unfold DebugPersistentState.Close, DebugPersistentState.CopyTo,
      DebugPersistentState.Data, DebugPersistentState.Delete,
      DebugPersistentState.DeleteBucket, DebugPersistentState.ForEach,
      DebugPersistentState.Get, DebugPersistentState.Set_;
    forward_inner Hinner; rewrite Hlogger;
    try (destruct r as [? r]); destruct r as [e|]; cbn;
    eexists; (split; [reflexivity |]); cbn;
    repeat split; try discriminate; try tauto; intuition discriminate.
Qed.

(** ** What single calls log *)

(** X18. With a logger, WriteFile logs the name, the data sample, the
    permissions as an integer and the size of the whole data, in this
    order, after the error when the wrapped call failed.  Writing a
    hundred bytes with permissions 0644 thus logs a sample of 67 bytes,
    perm 420 and size 100. *)
Theorem X18_WriteFile_record (s : DebugSystem.t) (l : Logger) (name : AbsPath)
    (data : bytes) (perm : fs_FileMode) (st : State) (err : error)
    (st1 : State) :
  DebugSystem.logger s = Some l ->
  System.WriteFile (DebugSystem.system s) name data perm st = Returned err st1 ->
  exists r,
    DebugSystem.WriteFile s name data perm st = Returned err (logged st1 r) /\
    sink r = ViaLogger l /\ level r = level_of err /\
    message r = "WriteFile" /\
    slog.argsToAttrs (args r)
    = match err with
      | Some e => [slog.Any "err" (slog.any_error e)]
      | None => []
      end
      ++ [slog.String "name" name;
          slog.String "data"
            (string_of_bytes (chezmoilog.FirstFewBytes data));
          slog.Int "perm" (Z.of_N perm);
          slog.Int "size" (Z.of_nat (List.length data))].
Proof.
  intros Hlogger Hinner.
  unfold DebugSystem.WriteFile, bind. rewrite Hinner, Hlogger.
  destruct err; cbn; eexists; repeat split.
Qed.

(** X19. With a logger, Readlink returns the link name and the error of
    the wrapped call and logs one record named ReadLink: at error level
    with the error alone when the wrapped call failed, at info level with
    the link name alone when it succeeded. *)
Theorem X19_Readlink_record (s : DebugSystem.t) (l : Logger) (name : AbsPath)
    (st : State) (linkname : string) (err : error) (st1 : State) :
  DebugSystem.logger s = Some l ->
  System.Readlink (DebugSystem.system s) name st
  = Returned (linkname, err) st1 ->
  exists r,
    DebugSystem.Readlink s name st = Returned (linkname, err) (logged st1 r) /\
    sink r = ViaLogger l /\ level r = level_of err /\
    message r = "ReadLink" /\
    slog.argsToAttrs (args r)
    = match err with
      | Some e => [slog.Any "err" (slog.any_error e)]
      | None => [slog.String "linkname" linkname]
      end.
Proof.
  intros Hlogger Hinner.
  unfold DebugSystem.Readlink, bind. rewrite Hinner, Hlogger.
  destruct err; cbn; eexists; repeat split.
Qed.

(** X20. RunScript logs the script under data as Output gives it: the
    whole script when the wrapped call failed, its FirstFewBytes sample
    when it succeeded; the record is at error level exactly in the first
    case. *)
Theorem X20_RunScript_data_sample (s : DebugSystem.t) (scriptname : RelPath)
    (dir : AbsPath) (data : bytes) (options : RunScriptOptions.t)
    (st : State) (err : error) (st1 : State) :
  System.RunScript (DebugSystem.system s) scriptname dir data options st
  = Returned err st1 ->
  exists r,
    DebugSystem.RunScript s scriptname dir data options st
    = Returned err (logged st1 r) /\
    level r = level_of err /\
    slog.lookup "data" (slog.argsToAttrs (args r))
    = Some (slog.StringValue
              (string_of_bytes
                 match err with
                 | Some _ => data
                 | None => chezmoilog.FirstFewBytes data
                 end)).
Proof.
  intros Hinner. rewrite (RunScript_record _ _ _ _ _ _ _ _ Hinner).
  eexists. split; [reflexivity |]. split; [reflexivity |].
  cbn [args]. rewrite attrs_of_args. destruct err; reflexivity.
Qed.

(** X21. RunCmd of a DebugSystem logs what LogCmdRun logs: when the
    wrapped System runs a command as cmd.Run does, the two return the
    same error and leave the same world and clock, and their records
    differ in the message only, RunCmd against Run. *)
Theorem X21_RunCmd_like_LogCmdRun (s : DebugSystem.t) (os_exec : CmdRunner)
    (cmd : exec.Cmd) (st : State) (err : error) (st1 : State) :
  System.RunCmd (DebugSystem.system s) cmd st = Returned err st1 ->
  cmd_Run os_exec cmd st = Returned err st1 ->
  exists r,
    DebugSystem.RunCmd s cmd st = Returned err (logged st1 r) /\
    chezmoilog_wrappers.LogCmdRun os_exec cmd st
    = Returned err
        (logged st1
           {| sink := sink r; level := level r; message := "Run";
              args := args r |}) /\
    message r = "RunCmd".
Proof.
  intros Hsys Hrun.
  rewrite (RunCmd_record _ _ _ _ _ Hsys), (LogCmdRun_record _ _ _ _ _ Hrun).
  eexists. repeat split.
Qed.

(** ** Decorating twice *)

Lemma DebugSystem_as_System_call (s : DebugSystem.t) R (c : SystemCall R) :
  System_call (DebugSystem_as_System s) c = DebugSystem_call s c.
Proof. destruct c; reflexivity. Qed.

(** X22. A DebugSystem around a DebugSystem, both with a logger, still
    returns what the innermost System returned; every call other than
    RawPath and UnderlyingFS is then logged twice, first by the inner
    decorator and then by the outer one, both records at the same level,
    and RawPath and UnderlyingFS are not logged at all. *)
Theorem X22_DebugSystem_twice (sys : System.t) (l1 l2 : Logger) R
    (c : SystemCall R) (st : State) (r : R) (st1 : State) :
  let inner := DebugSystem.NewDebugSystem sys (Some l1) in
  let outer :=
    DebugSystem.NewDebugSystem (DebugSystem_as_System inner) (Some l2) in
  System_call sys c st = Returned r st1 ->
  if passes_through c
  then DebugSystem_call outer c st = Returned r st1
  else
    exists rec1 rec2,
      DebugSystem_call outer c st
      = Returned r (logged (logged st1 rec1) rec2) /\
      level rec1 = level rec2 /\
      sink rec1 = (if logs_to_default c then ViaDefault else ViaLogger l1) /\
      sink rec2 = (if logs_to_default c then ViaDefault else ViaLogger l2).
Proof.
  intros inner outer Hsys.
  pose proof (DebugSystem_logs_once inner l1 R c st r st1 eq_refl Hsys)
    as Hin.
  destruct (passes_through c) eqn:Epass.
  - pose proof (DebugSystem_logs_once outer l2 R c st r st1 eq_refl) as Hout.
    rewrite Epass in Hout. apply Hout.
    cbn [outer DebugSystem.system DebugSystem.NewDebugSystem].
    rewrite DebugSystem_as_System_call. exact Hin.
  - destruct Hin as (rec1 & Hcall1 & Hlevel1 & Hsink1).
    pose proof (DebugSystem_logs_once outer l2 R c st r (logged st1 rec1)
                  eq_refl) as Hout.
    rewrite Epass in Hout.
    destruct Hout as (rec2 & Hcall2 & Hlevel2 & Hsink2).
    { cbn [outer DebugSystem.system DebugSystem.NewDebugSystem].
      rewrite DebugSystem_as_System_call. exact Hcall1. }
    exists rec1, rec2. repeat split; try assumption. congruence.
Qed.

End MoreProperties.

(* ================================================================= *)
(** * The further properties at work on the test doubles *)

(** Data of 65 bytes has a sample of 67 bytes. *)
Lemma X1_FirstFewBytes_length_witness :
  (List.length (List.repeat x00 65)
   < List.length (chezmoilog.FirstFewBytes (List.repeat x00 65)))%nat.
Proof.
  apply (proj2 (proj2 (proj2 (proj2 (X1_FirstFewBytes_length
                                        (List.repeat x00 65)))))).
  cbn. lia.
Defined.

(** A nil error is decoded into the attribute err. *)
Lemma X3_AppendExitErrorAttrs_appends_witness :
  chezmoilog.AppendExitErrorAttrs [] None = [slog.Any "err" slog.any_nil].
Proof.
  apply (proj2 (proj2 (proj2 (X3_AppendExitErrorAttrs_appends [] None)))).
  reflexivity.
Defined.

Lemma X4_AppendExitErrorAttrs_unwraps_witness :
  chezmoilog.AppendExitErrorAttrs [] (exitErrorOf exited2)
  = chezmoilog.AppendExitErrorAttrs []
      (Some (ExecExitError
               {| exec.ProcessState := Some exited2; exec.Stderr := [] |})).
Proof.
  apply (X4_AppendExitErrorAttrs_unwraps [] (exitErrorOf exited2)
           {| exec.ProcessState := Some exited2; exec.Stderr := [] |}).
  reflexivity.
Defined.

Lemma X5_AppendExitErrorAttrs_keys_exclusive_witness :
  slog.keys (chezmoilog.AppendExitErrorAttrs [] (Some someError)) = ["err"].
Proof.
  apply (proj2 (proj2 (X5_AppendExitErrorAttrs_keys_exclusive
                         (Some someError)))).
  left. reflexivity.
Defined.

(** A process killed by a signal: its log value is what the decoding of
    the exit error gives. *)
Lemma X6_process_state_log_value_witness :
  group_attrs (OSProcessStateLogObject.LogValue (Some killed9))
  = [slog.Int "pid" 4243; slog.Duration "systemTime" 700].
Proof.
  apply (proj1 (X6_process_state_log_value killed9 [])).
  reflexivity.
Defined.

Lemma X7_ExecCommand_args_witness :
  exists i',
    Some {| Interpreter.Command := "sh"; Interpreter.Args := ["-x"] |}
    = Some i' /\ Interpreter.Command i' <> "".
Proof.
  apply (proj1 (proj2 (proj2
           (@X7_ExecCommand_args testPlatform
              (Some {| Interpreter.Command := "sh";
                       Interpreter.Args := ["-x"] |})
              "deploy.sh")))).
  reflexivity.
Defined.

(** A failing run of ls is recorded once, at error level. *)
Lemma X9_LogCmd_returns_and_records_once_witness :
  exists r,
    chezmoilog_wrappers.LogCmdRun (mockRunner 5 [] (Some someError)) lsCmd
      testState
    = Returned (Some someError)
        (logged (@Build_State testPlatform [] 5 []) r) /\
    sink r = ViaDefault /\ level r = slog.LevelError /\ message r = "Run".
Proof.
  apply (proj1 (X9_LogCmd_returns_and_records_once (H := testPlatform)
                  (mockRunner 5 [] (Some someError)) lsCmd testState)
           (Some someError) (@Build_State testPlatform [] 5 [])).
  reflexivity.
Defined.

(** A hundred bytes of output of a command that succeeds. *)
Lemma X10_LogCmdOutput_sample_and_size_witness :
  exists r,
    chezmoilog_wrappers.LogCmdOutput (mockRunner 5 data100 None) lsCmd
      testState
    = Returned (data100, None) (logged (@Build_State testPlatform [] 5 []) r) /\
    slog.lookup "output" (slog.argsToAttrs (args r))
    = Some (slog.AnyValue
              (slog.any_bytes (chezmoilog.FirstFewBytes data100))) /\
    slog.lookup "size" (slog.argsToAttrs (args r))
    = Some (slog.IntValue 100).
Proof.
  apply (proj1 (X10_LogCmdOutput_sample_and_size (H := testPlatform)
                  (mockRunner 5 data100 None) lsCmd testState)
           data100 None (@Build_State testPlatform [] 5 [])).
  reflexivity.
Defined.

Lemma X11_LogCmd_times_witness :
  exists r,
    chezmoilog_wrappers.LogCmdWait (mockRunner 5 [] None) lsCmd testState
    = Returned None (logged (@Build_State testPlatform [] 5 []) r) /\
    slog.lookup "end" (slog.argsToAttrs (args r))
    = Some (slog.TimeValue 5).
Proof.
  apply (proj2 (proj2 (X11_LogCmd_times (H := testPlatform)
                         (mockRunner 5 [] None) lsCmd testState))
           None (@Build_State testPlatform [] 5 [])).
  reflexivity.
Defined.

Lemma X12_success_logs_nil_err_witness :
  exists r,
    DebugSystem.RunCmd (testDebugSystem None) lsCmd testState
    = Returned None (logged (@Build_State testPlatform [] 5 []) r) /\
    level r = slog.LevelInfo /\
    exists front,
      slog.argsToAttrs (args r) = front ++ [slog.Any "err" slog.any_nil] /\
      ~ In "err" (slog.keys front).
Proof.
  apply (proj1 (proj2 (X12_success_logs_nil_err (H := testPlatform)
                         (mockRunner 5 [] None) (testDebugSystem None)
                         lsCmd testState))
           (@Build_State testPlatform [] 5 [])).
  reflexivity.
Defined.

(** A request answered with 404 and an error; the same without logger;
    and a request without URL. *)
Lemma X13_LogHTTPRequest_witness :
  (exists r,
      chezmoilog_wrappers.LogHTTPRequest (Some testLogger)
        (mockClient (Some notFound) (Some someError)) getRequest testState
      = Returned (Some notFound, Some someError)
          (logged (@Build_State testPlatform [] 7 []) r) /\
      sink r = ViaLogger testLogger /\ level r = slog.LevelError /\
      message r = "HTTPRequest" /\
      slog.argsToAttrs (args r)
      = [slog.Duration "duration" 7; slog.String "method" "GET";
         slog.String "url" "https://example.com/";
         slog.Int "contentLength" 9; slog.String "status" "404 Not Found";
         slog.Int "statusCode" 404;
         slog.Any "err" (slog.any_error someError)]) /\
  chezmoilog_wrappers.LogHTTPRequest None
    (mockClient (Some notFound) (Some someError)) getRequest testState
  = Panicked (@Build_State testPlatform [] 7 []) /\
  chezmoilog_wrappers.LogHTTPRequest (Some testLogger)
    (mockClient None (Some someError)) noURLRequest testState
  = Panicked (@Build_State testPlatform [] 7 []).
Proof.
  destruct (X13_LogHTTPRequest (H := testPlatform)
              (mockClient (Some notFound) (Some someError)) getRequest
              testState (Some notFound) (Some someError)
              (@Build_State testPlatform [] 7 []) eq_refl)
    as (Hlogged & Hnil & _).
  destruct (X13_LogHTTPRequest (H := testPlatform)
              (mockClient None (Some someError)) noURLRequest
              testState None (Some someError)
              (@Build_State testPlatform [] 7 []) eq_refl)
    as (_ & _ & Hnourl).
  split; [exact (Hlogged testLogger "https://example.com/" eq_refl) |].
  split; [exact (Hnil "https://example.com/" eq_refl) |].
  exact (Hnourl (Some testLogger) eq_refl).
Defined.

Lemma X14_DebugSystem_one_record_per_call_witness :
  exists rec,
    DebugSystem_call (testDebugSystem (Some someError))
      (CallChmod "/tmp/x" 420%N) testState
    = Returned (Some someError)
        (logged (@Build_State testPlatform [] 5 []) rec) /\
    level rec = slog.LevelError /\ sink rec = ViaLogger testLogger.
Proof.
  exact (X14_DebugSystem_one_record_per_call (H := testPlatform)
           (testDebugSystem (Some someError)) testLogger _
           (CallChmod "/tmp/x" 420%N) testState (Some someError)
           (@Build_State testPlatform [] 5 []) eq_refl eq_refl).
Defined.

(** ReadFile through a DebugSystem without logger: the panic comes when
    the 5ns of the wrapped call have passed. *)
Lemma X15_DebugSystem_nil_logger_witness :
  DebugSystem_call
    (DebugSystem.NewDebugSystem (mockSystem 5 data100 None) None)
    (CallReadFile "/tmp/x") testState
  = Panicked (@Build_State testPlatform [] 5 []).
Proof.
  exact (X15_DebugSystem_nil_logger (H := testPlatform)
           (mockSystem 5 data100 None) _ (CallReadFile "/tmp/x") testState
           (data100, None) (@Build_State testPlatform [] 5 []) eq_refl).
Defined.

(** The store holds A, B and C; the callback logs, takes time and fails on
    B: its own records alternate with those of the entries A and B, and C
    is not reached.  A callback that panics on B makes ForEach panic. *)
Lemma X16_ForEach_logs_each_visited_entry_witness :
  DebugPersistentState.ForEach testDebugPersistentState [] chattyCallback
    testState
  = Returned (Some someError)
      (@Build_State testPlatform [keyA; keyB] 2
         [chattyRecord keyA;
          entryRecord (H := testPlatform) testLogger [] (keyA, val1, None);
          chattyRecord keyB;
          entryRecord (H := testPlatform) testLogger []
            (keyB, val2, Some someError);
          callRecord (H := testPlatform) testLogger [] (Some someError)]) /\
  DebugPersistentState.ForEach testDebugPersistentState [] panickyCallback
    testState
  = Panicked
      (@Build_State testPlatform [] 0
         [entryRecord (H := testPlatform) testLogger [] (keyA, val1, None)]).
Proof.
  split.
  - apply (proj1 (X16_ForEach_logs_each_visited_entry (H := testPlatform)
                    testDebugPersistentState testLogger []
                    [(keyA, val1); (keyB, val2); (keyC, val3)] chattyCallback
                    testState eq_refl (fun f st0 => eq_refl))
             [(keyA, val1, None); (keyB, val2, Some someError)]
             (@Build_State testPlatform [keyA; keyB] 2
                [chattyRecord keyA;
                 entryRecord (H := testPlatform) testLogger []
                   (keyA, val1, None);
                 chattyRecord keyB;
                 entryRecord (H := testPlatform) testLogger []
                   (keyB, val2, Some someError)])
             (Some someError)).
    + eapply Visits_next; [reflexivity |].
      eapply Visits_next; [reflexivity |]. apply Visits_none.
    + exists [(keyC, val3)]. split; [reflexivity | discriminate].
    + exists [(keyA, val1, None)], keyB, val2.
      split; [reflexivity |]. repeat constructor.
  - apply (proj1 (proj2 (X16_ForEach_logs_each_visited_entry
                           (H := testPlatform)
                           testDebugPersistentState testLogger []
                           [(keyA, val1); (keyB, val2); (keyC, val3)]
                           panickyCallback testState eq_refl
                           (fun f st0 => eq_refl)))
             [(keyA, val1, None)]
             (@Build_State testPlatform [] 0
                [entryRecord (H := testPlatform) testLogger []
                   (keyA, val1, None)])
             keyB val2 [(keyC, val3)]).
    + eapply Visits_next; [reflexivity |]. apply Visits_none.
    + repeat constructor.
    + reflexivity.
    + reflexivity.
Defined.

Lemma X17_DebugPersistentState_one_record_per_call_witness :
  exists rec,
    DebugPersistentState_call testDebugPersistentState (CallGet keyA keyB)
      testState
    = Returned ([], None) (logged testState rec) /\
    sink rec = ViaLogger testLogger /\ level rec = slog.LevelInfo /\
    ~ In slog.badKey (slog.keys (slog.argsToAttrs (args rec))) /\
    (In "err" (slog.keys (slog.argsToAttrs (args rec))) <->
     @None error_value <> None).
Proof.
  exact (X17_DebugPersistentState_one_record_per_call (H := testPlatform)
           testDebugPersistentState testLogger _ (CallGet keyA keyB)
           testState ([], None) testState eq_refl eq_refl).
Defined.

(** Writing a hundred zero bytes to /tmp/x with permissions 0644. *)
Lemma X18_WriteFile_record_witness :
  exists r,
    DebugSystem.WriteFile (testDebugSystem None) "/tmp/x" data100 420%N
      testState
    = Returned None (logged (@Build_State testPlatform [] 5 []) r) /\
    sink r = ViaLogger testLogger /\ level r = slog.LevelInfo /\
    message r = "WriteFile" /\
    slog.argsToAttrs (args r)
    = [slog.String "name" "/tmp/x";
       slog.String "data"
         (string_of_bytes (List.repeat x00 64 ++ [x2e; x2e; x2e]));
       slog.Int "perm" 420; slog.Int "size" 100].
Proof.
  exact (X18_WriteFile_record (H := testPlatform) (testDebugSystem None)
           testLogger "/tmp/x" data100 420%N testState None
           (@Build_State testPlatform [] 5 []) eq_refl eq_refl).
Defined.

Lemma X19_Readlink_record_witness :
  exists r,
    DebugSystem.Readlink (testDebugSystem (Some someError)) "/tmp/x" testState
    = Returned (string_of_bytes data100, Some someError)
        (logged (@Build_State testPlatform [] 5 []) r) /\
    sink r = ViaLogger testLogger /\ level r = slog.LevelError /\
    message r = "ReadLink" /\
    slog.argsToAttrs (args r) = [slog.Any "err" (slog.any_error someError)].
Proof.
  exact (X19_Readlink_record (H := testPlatform)
           (testDebugSystem (Some someError)) testLogger "/tmp/x" testState
           (string_of_bytes data100) (Some someError)
           (@Build_State testPlatform [] 5 []) eq_refl eq_refl).
Defined.

(** A script of a hundred bytes that fails is logged in full. *)
Lemma X20_RunScript_data_sample_witness :
  exists r,
    DebugSystem.RunScript (testDebugSystem (Some someError)) "deploy.sh"
      "/home" data100 noOptions testState
    = Returned (Some someError)
        (logged (@Build_State testPlatform [] 5 []) r) /\
    level r = slog.LevelError /\
    slog.lookup "data" (slog.argsToAttrs (args r))
    = Some (slog.StringValue (string_of_bytes data100)).
Proof.
  exact (X20_RunScript_data_sample (H := testPlatform)
           (testDebugSystem (Some someError)) "deploy.sh" "/home" data100
           noOptions testState (Some someError)
           (@Build_State testPlatform [] 5 []) eq_refl).
Defined.

Lemma X21_RunCmd_like_LogCmdRun_witness :
  exists r,
    DebugSystem.RunCmd (testDebugSystem None) lsCmd testState
    = Returned None (logged (@Build_State testPlatform [] 5 []) r) /\
    chezmoilog_wrappers.LogCmdRun (mockRunner 5 [] None) lsCmd testState
    = Returned None
        (logged (@Build_State testPlatform [] 5 [])
           {| sink := sink r; level := level r; message := "Run";
              args := args r |}) /\
    message r = "RunCmd".
Proof.
  exact (X21_RunCmd_like_LogCmdRun (H := testPlatform) (testDebugSystem None)
           (mockRunner 5 [] None) lsCmd testState None
           (@Build_State testPlatform [] 5 []) eq_refl eq_refl).
Defined.

(** A Chmod through two decorators with the loggers 1 and 2. *)
Lemma X22_DebugSystem_twice_witness :
  exists rec1 rec2,
    DebugSystem_call
      (DebugSystem.NewDebugSystem
         (DebugSystem_as_System
            (DebugSystem.NewDebugSystem (mockSystem 5 [] None)
               (Some testLogger)))
         (Some (2%nat : @Logger testPlatform)))
      (CallChmod "/tmp/x" 420%N) testState
    = Returned None
        (logged (logged (@Build_State testPlatform [] 5 []) rec1) rec2) /\
    level rec1 = level rec2 /\
    sink rec1 = ViaLogger testLogger /\
    sink rec2 = ViaLogger (2%nat : @Logger testPlatform).
Proof.
  exact (X22_DebugSystem_twice (H := testPlatform) (mockSystem 5 [] None)
           testLogger (2%nat : @Logger testPlatform) _
           (CallChmod "/tmp/x" 420%N) testState None
           (@Build_State testPlatform [] 5 []) eq_refl).
Defined.
